(** * DoJSON rules for MARC fields in 5xx (inspire_dojson/hep/rules/bd5xx.py)

    A shallow embedding of the forward (MARC -> HEP) and backward
    (HEP -> MARC) rules of [bd5xx.py], followed by the properties the
    documentation states about them.

    Python objects are values of [pyval]; a dict is a finite map keyed by
    strings, so two dicts holding the same items are equal whatever the order
    the items were written in.  A rule that can raise returns a [result].
    The in-progress output record ([self] in the source) is threaded
    explicitly: a rule takes the record and gives back the record as it is
    after the call, together with the value it returns.  The [key] argument
    of the rules is not used by any of them and is left out.

    Every rule of the file is embedded: 500, 502, 520, 536, 540, 542 and
    595 with its sub-families, in both directions where the source has
    both. *)

From Stdlib Require Import ZArith Ascii String.
From stdpp Require Import base option list gmap strings fin_maps.

Set Warnings "-register-all".

(** ** Python values *)

Inductive pyval : Type :=
| PNone
| PBool (b : bool)
| PInt (n : Z)
| PStr (s : string)
| PList (xs : list pyval)
| PDict (d : gmap string pyval).

(** The in-progress output record, and any other mapping with string keys. *)
Abbreviation record := (gmap string pyval).

(** ** Exceptions and results *)

Inductive pyexn : Type :=
| AttributeError
| TypeError.

Inductive result (A : Type) : Type :=
| Ok (a : A)
| Raise (e : pyexn).

Arguments Ok {A} a.
Arguments Raise {A} e.

#[global] Instance result_ret : MRet result := λ A a, Ok a.

#[global] Instance result_bind : MBind result := λ A B f m,
  match m with
  | Ok a => f a
  | Raise e => Raise e
  end.

#[global] Instance result_fmap : FMap result := λ A B f m,
  match m with
  | Ok a => Ok (f a)
  | Raise e => Raise e
  end.

(** A [for] loop whose body may raise: the accumulator is the part of the
    state the body updates. *)
Fixpoint for_each {A S : Type} (body : S → A → result S) (s : S) (xs : list A)
  : result S :=
  match xs with
  | [] => Ok s
  | x :: xs' => s' ← body s x; for_each body s' xs'
  end.

(** A list comprehension whose element expression may raise. *)
Fixpoint comprehension {A B : Type} (f : A → result B) (xs : list A)
  : result (list B) :=
  match xs with
  | [] => Ok []
  | x :: xs' => y ← f x; ys ← comprehension f xs'; Ok (y :: ys)
  end.

(** ** Python primitives used by the rules *)

Module Py.

(** Truth value of an object, as tested by [if], [or] and [not]. *)
Definition truthy (v : pyval) : bool :=
  match v with
  | PNone => false
  | PBool b => b
  | PInt n => negb (n =? 0)%Z
  | PStr s => negb (String.eqb s "")
  | PList xs => match xs with [] => false | _ => true end
  | PDict d => negb (bool_decide (d = ∅))
  end.

(** [value.get(k, default)]: only a mapping has the method. *)
Definition get (value : pyval) (k : string) (dflt : pyval) : result pyval :=
  match value with
  | PDict d => Ok (default dflt (d !! k))
  | _ => Raise AttributeError
  end.

(** [self.get(k, default)] on the output record, which is always a dict. *)
Definition self_get (self : record) (k : string) (dflt : pyval) : pyval :=
  default dflt (self !! k).

(** [obj[k] = v] with a string key: only a dict accepts it. *)
Definition setitem (obj : pyval) (k : string) (v : pyval) : result pyval :=
  match obj with
  | PDict d => Ok (PDict (<[k := v]> d))
  | _ => Raise TypeError
  end.

(** [obj.append(v)]: only a list has the method. *)
Definition append (obj : pyval) (v : pyval) : result pyval :=
  match obj with
  | PList xs => Ok (PList (xs ++ [v]))
  | _ => Raise AttributeError
  end.

(** [x == s] for a string constant [s]: an object of another type is
    never equal to a string. *)
Definition eq_str (x : pyval) (s : string) : bool :=
  match x with
  | PStr t => String.eqb t s
  | _ => false
  end.

(** [x != s] for a string constant [s]. *)
Definition ne_str (x : pyval) (s : string) : bool := negb (eq_str x s).

(** The object fetched by [self.get(k, default)] is the one stored in the
    record when the key is there, so mutating it in place is seen through
    the record; the default object is not stored anywhere. *)
Definition mutated_in_place (self : record) (k : string) (v : pyval) : record :=
  match self !! k with
  | Some _ => <[k := v]> self
  | None => self
  end.

End Py.

(** ** Text: letter case and digits

    A text is a string of 8-bit characters.  A Python text whose
    characters are all in ASCII is that string, character for character,
    and on such a text [str.upper()] changes the letters a-z and nothing
    else, the class [\d] holds the digits 0-9 and nothing else, and
    [re.IGNORECASE] identifies the letters A-Z with a-z and nothing else:
    this is what the definitions below do.  Python's Unicode text has cased
    characters and decimal digits outside ASCII as well (a dotless i, a
    long s, the Arabic-Indic digits); the definitions below carry every
    character outside ASCII through unchanged and take none of them for a
    digit, so they are Python's on the texts that satisfy [is_ascii]. *)

Module Text.

(** A character of ASCII. *)
Definition is_ascii_char (c : ascii) : bool := Nat.ltb (nat_of_ascii c) 128.

(** [s.isascii()]: every character of the text is in ASCII. *)
Fixpoint is_ascii (s : string) : bool :=
  match s with
  | EmptyString => true
  | String c s' => is_ascii_char c && is_ascii s'
  end.

Definition is_digit (c : ascii) : bool :=
  let n := nat_of_ascii c in Nat.leb 48 n && Nat.leb n 57.

Definition upper_char (c : ascii) : ascii :=
  let n := nat_of_ascii c in
  if Nat.leb 97 n && Nat.leb n 122 then ascii_of_nat (n - 32) else c.

Definition lower_char (c : ascii) : ascii :=
  let n := nat_of_ascii c in
  if Nat.leb 65 n && Nat.leb n 90 then ascii_of_nat (n + 32) else c.

Fixpoint upper (s : string) : string :=
  match s with
  | EmptyString => EmptyString
  | String c s' => String (upper_char c) (upper s')
  end.

Fixpoint lower (s : string) : string :=
  match s with
  | EmptyString => EmptyString
  | String c s' => String (lower_char c) (lower s')
  end.

(** Two strings that differ in letter case only. *)
Definition same_ignoring_case (s t : string) : Prop := lower s = lower t.

(** [obj.upper()]: only a string has the method. *)
Definition upper_method (obj : pyval) : result string :=
  match obj with
  | PStr s => Ok (upper s)
  | _ => Raise AttributeError
  end.

End Text.

(** ** Helper collaborators (inspire_dojson.utils) *)

(** Modelled from the spec: [force_list] of inspire_dojson/utils/helpers.py is
    not part of the sources at hand.  "scalar -> one-element ordered
    sequence; sequence -> itself unchanged"; a missing value ([None]) is the
    empty sequence ("missing input degrades to ... empty list"). *)
Definition force_list (data : pyval) : list pyval :=
  match data with
  | PNone => []
  | PList xs => xs
  | _ => [data]
  end.

(** Modelled from the spec: [force_single_element] of
    inspire_dojson/utils/__init__.py is not part of the sources at hand.
    "single-element sequence -> that element; empty -> empty/absent;
    multi-element -> ... the first-or-only". *)
Definition force_single_element (obj : pyval) : pyval :=
  match force_list obj with
  | [] => PNone
  | x :: _ => x
  end.

(** ** The defense-date pattern

    [IS_DEFENSE_DATE = re.compile(
       'Presented on (?P<defense_date>\d{4}(-\d{2}){,2})', re.IGNORECASE)]

    [IS_DEFENSE_DATE.match] anchors the pattern at the start of the text
    and leaves what follows the match free.  The literal prefix is compared
    ignoring letter case; the group is four digits followed, greedily, by
    at most two blocks made of a dash and two digits.  Nothing follows the
    group in the pattern, so the greedy choice is never undone.

    Letters and digits are those of [Text]: the matcher is the pattern's on
    [Text.is_ascii] text. *)

Module Regex.

(** The literal part, compared ignoring case; gives the rest of the text. *)
Fixpoint literal_ignorecase (lit text : string) : option string :=
  match lit, text with
  | EmptyString, _ => Some text
  | String _ _, EmptyString => None
  | String a lit', String b text' =>
      if Ascii.eqb (Text.lower_char a) (Text.lower_char b)
      then literal_ignorecase lit' text'
      else None
  end.

(** [\d{n}]: exactly [n] digits; gives the digits and the rest. *)
Fixpoint digits (n : nat) (text : string) : option (string * string) :=
  match n, text with
  | O, _ => Some (EmptyString, text)
  | S n', String c text' =>
      if Text.is_digit c
      then '(ds, rest) ← digits n' text'; Some (String c ds, rest)
      else None
  | S _, EmptyString => None
  end.

(** [-\d{2}] *)
Definition dash_block (text : string) : option (string * string) :=
  match text with
  | String "-" text' => '(ds, rest) ← digits 2 text'; Some (String "-" ds, rest)
  | _ => None
  end.

(** [(-\d{2}){,n}], greedy: as many blocks as there are, at most [n]. *)
Fixpoint dash_blocks (n : nat) (text : string) : string :=
  match n with
  | O => EmptyString
  | S n' =>
      match dash_block text with
      | Some (blk, rest) => blk +:+ dash_blocks n' rest
      | None => EmptyString
      end
  end.

(** [IS_DEFENSE_DATE.match(text).group('defense_date')], or [None] when
    the text does not match. *)
Definition defense_date (text : string) : option string :=
  rest ← literal_ignorecase "Presented on " text;
  '(year, rest') ← digits 4 rest;
  Some (year +:+ dash_blocks 2 rest').

(** [IS_DEFENSE_DATE.match(obj)]: the pattern only applies to a string. *)
Definition IS_DEFENSE_DATE_match (obj : pyval) : result (option string) :=
  match obj with
  | PStr text => Ok (defense_date text)
  | _ => Raise TypeError
  end.

End Regex.

(** ** Forward rule for 500: [public_notes]

    [@hep.over('public_notes', '^500..')] *)

(** The entry appended for a text that is not a defense date. *)
Definition note_entry (source value : pyval) : pyval :=
  PDict (<["source" := source]> (<["value" := value]> ∅)).

(** Body of the inner loop; the state is [(thesis_info, public_notes)]. *)
Definition public_notes_body (source : pyval) (st : pyval * pyval)
    (public_note : pyval) : result (pyval * pyval) :=
  let '(thesis_info, public_notes) := st in
  m ← Regex.IS_DEFENSE_DATE_match public_note;
  match m with
  | Some defense_date =>
      thesis_info' ← Py.setitem thesis_info "defense_date" (PStr defense_date);
      Ok (thesis_info', public_notes)
  | None =>
      public_notes' ← Py.append public_notes (note_entry source public_note);
      Ok (thesis_info, public_notes')
  end.

(** Body of the outer loop, over the occurrences. *)
Definition public_notes_occurrence (source : pyval) (st : pyval * pyval)
    (value : pyval) : result (pyval * pyval) :=
  a ← Py.get value "a" PNone;
  for_each (public_notes_body source) st (force_list a).

Definition public_notes (self : record) (value : pyval)
  : result (record * pyval) :=
  let public_notes := Py.self_get self "public_notes" (PList []) in
  let thesis_info := Py.self_get self "thesis_info" (PDict ∅) in
  v9 ← Py.get value "9" (PStr "");
  let source := force_single_element v9 in
  '(thesis_info', public_notes') ←
    for_each (public_notes_occurrence source)
             (thesis_info, public_notes) (force_list value);
  let self' := Py.mutated_in_place self "public_notes" public_notes' in
  Ok (<["thesis_info" := thesis_info']> self', public_notes').

(** ** Forward rule for 502: [thesis_info]

    [@hep.over('thesis_info', '^502..')] *)

Definition DEGREE_TYPES_MAP : gmap string string :=
  list_to_map [
    ("RAPPORT DE STAGE", "other");
    ("INTERNSHIP REPORT", "other");
    ("DIPLOMA", "diploma");
    ("BACHELOR", "bachelor");
    ("LAUREA", "laurea");
    ("MASTER", "master");
    ("THESIS", "other");
    ("PHD", "phd");
    ("PDF", "phd");
    ("PH.D. THESIS", "phd");
    ("HABILITATION", "habilitation")
  ].

(** The nested function falls off its end, that is returns [None], when
    [b_value] is false. *)
Definition _get_degree_type (value : pyval) : result pyval :=
  vb ← Py.get value "b" (PStr "");
  let b_value := force_single_element vb in
  if Py.truthy b_value then
    u ← Text.upper_method b_value;
    Ok (PStr (default "other" (DEGREE_TYPES_MAP !! u)))
  else Ok PNone.

Section Institutions.

(** [get_record_ref] of inspire_dojson/utils is a collaborator outside
    the sources at hand: "opaque key + namespace -> typed
    cross-reference object or null if unresolvable".  The rules are
    stated for any such resolver. *)
Variable get_record_ref : pyval → string → pyval.

Definition name_only (c_value : pyval) : pyval :=
  PDict (<["name" := c_value]> ∅).

Definition with_record (cz : pyval * pyval) : pyval :=
  PDict (<["curated_relation" := PBool true]>
         (<["name" := cz.1]>
          (<["record" := get_record_ref cz.2 "institutions"]> ∅))).

Definition _get_institutions (value : pyval) : result pyval :=
  vc ← Py.get value "c" PNone;
  let c_values := force_list vc in
  vz ← Py.get value "z" PNone;
  let z_values := force_list vz in
  if negb (Nat.eqb (length c_values) (length z_values))
  then Ok (PList (name_only <$> c_values))
  else Ok (PList (with_record <$> zip c_values z_values)).

(** The object fetched from the record is updated in place and returned;
    when the record already held it, the record sees the update. *)
Definition thesis_info (self : record) (value : pyval)
  : result (record * pyval) :=
  let thesis_info := Py.self_get self "thesis_info" (PDict ∅) in
  vd ← Py.get value "d" PNone;
  t1 ← Py.setitem thesis_info "date" (force_single_element vd);
  degree_type ← _get_degree_type value;
  t2 ← Py.setitem t1 "degree_type" degree_type;
  institutions ← _get_institutions value;
  t3 ← Py.setitem t2 "institutions" institutions;
  Ok (Py.mutated_in_place self "thesis_info" t3, t3).

End Institutions.

(** ** [dojson.utils.for_each_value]

    The decorator of the dojson library: the rule is applied to each value
    of a sequence, or to the value itself when it is not a sequence, and
    the results are always returned as a list. *)
Definition for_each_value (f : pyval → result pyval) (values : pyval)
  : result pyval :=
  match values with
  | PList vs => PList <$> comprehension f vs
  | _ => v ← f values; Ok (PList [v])
  end.

(** ** Funding: 536 *)

Definition funding_info_1 (value : pyval) : result pyval :=
  a ← Py.get value "a" PNone;
  c ← Py.get value "c" PNone;
  f ← Py.get value "f" PNone;
  Ok (PDict (<["agency" := a]>
            (<["grant_number" := c]>
            (<["project_number" := f]> ∅)))).

(** [@hep.over('funding_info', '^536..') @utils.for_each_value] *)
Definition funding_info : pyval → result pyval := for_each_value funding_info_1.

Definition funding_info2marc_1 (value : pyval) : result pyval :=
  a ← Py.get value "agency" PNone;
  c ← Py.get value "grant_number" PNone;
  f ← Py.get value "project_number" PNone;
  Ok (PDict (<["a" := a]> (<["c" := c]> (<["f" := f]> ∅)))).

(** [@hep2marc.over('536', '^funding_info$') @utils.for_each_value] *)
Definition funding_info2marc : pyval → result pyval :=
  for_each_value funding_info2marc_1.

(** ** License: 540 *)

(** [[val for val in license_value if license_value != 'Open Access']]:
    the condition tests the list itself, once per element. *)
Definition strip_open_access (license_value : list pyval) : list pyval :=
  filter (λ val, Is_true (Py.ne_str (PList license_value) "Open Access"))
         license_value.

Definition license_1 (value : pyval) : result pyval :=
  a ← Py.get value "a" PNone;
  let license_value := force_list a in
  let license_value := strip_open_access license_value in
  let license_value := force_single_element (PList license_value) in
  b ← Py.get value "b" PNone;
  u ← Py.get value "u" PNone;
  m ← Py.get value "3" PNone;
  Ok (PDict (<["license" := license_value]>
            (<["imposing" := b]>
            (<["url" := u]>
            (<["material" := m]> ∅))))).

(** [@hep.over('license', '^540..') @utils.for_each_value] *)
Definition license : pyval → result pyval := for_each_value license_1.

Definition license2marc_1 (value : pyval) : result pyval :=
  a ← Py.get value "license" PNone;
  b ← Py.get value "imposing" PNone;
  u ← Py.get value "url" PNone;
  m ← Py.get value "material" PNone;
  Ok (PDict (<["a" := a]> (<["b" := b]> (<["u" := u]> (<["3" := m]> ∅))))).

(** [@hep2marc.over('540', '^license$') @utils.for_each_value] *)
Definition license2marc : pyval → result pyval := for_each_value license2marc_1.

(** ** Copyright: 542 *)

(** [table.get(key)] on a dict literal whose keys are strings: a key of
    another hashable type is not found; a list or a dict cannot be hashed. *)
Definition table_get (table : gmap string string) (key : pyval) : result pyval :=
  match key with
  | PStr s => Ok (from_option PStr PNone (table !! s))
  | PList _ | PDict _ => Raise TypeError
  | _ => Ok PNone
  end.

Definition MATERIAL_MAP : gmap string string :=
  list_to_map [
    ("Article", "publication");
    ("Published thesis as a book", "publication")
  ].

Definition E_MAP : gmap string string :=
  list_to_map [ ("publication", "Article") ].

Section Copyright.

(** [maybe_int] of inspire_dojson/utils/helpers.py is a collaborator
    outside the sources at hand: "string/number/empty -> integer or
    absent; non-numeric input is absent, not an error". *)
Variable maybe_int : pyval → pyval.

(** [value.get('e') or value.get('3')]: the right operand is only
    evaluated when the left one is false. *)
Definition copyright_1 (value : pyval) : result pyval :=
  e ← Py.get value "e" PNone;
  material ← (if Py.truthy e then Ok e else Py.get value "3" PNone);
  d ← Py.get value "d" PNone;
  mat ← table_get MATERIAL_MAP material;
  f ← Py.get value "f" PNone;
  u ← Py.get value "u" PNone;
  g ← Py.get value "g" PNone;
  Ok (PDict (<["holder" := d]>
            (<["material" := mat]>
            (<["statement" := f]>
            (<["url" := u]>
            (<["year" := maybe_int g]> ∅)))))).

(** [@hep.over('copyright', '^542..') @utils.for_each_value] *)
Definition copyright : pyval → result pyval := for_each_value copyright_1.

End Copyright.

Definition copyright2marc_1 (value : pyval) : result pyval :=
  e_value ← Py.get value "material" PNone;
  d ← Py.get value "holder" PNone;
  e ← table_get E_MAP e_value;
  f ← Py.get value "statement" PNone;
  g ← Py.get value "year" PNone;
  u ← Py.get value "url" PNone;
  Ok (PDict (<["d" := d]> (<["e" := e]> (<["f" := f]> (<["g" := g]>
            (<["u" := u]> ∅)))))).

(** [@hep2marc.over('542', '^copyright$') @utils.for_each_value] *)
Definition copyright2marc : pyval → result pyval :=
  for_each_value copyright2marc_1.

(** ** Private notes and export flags: 595 *)

(** [value.get('c', '').upper() == marker] *)
Definition classified_as (marker : string) (value : pyval) : result bool :=
  c ← Py.get value "c" (PStr "");
  u ← Text.upper_method c;
  Ok (String.eqb u marker).

(** The [if / elif / elif] chain at the head of the loop body of
    [_private_notes]. *)
Definition export_flag (_export_to value : pyval) : result pyval :=
  cds ← classified_as "CDS" value;
  if (cds : bool) then Py.setitem _export_to "CDS" (PBool true)
  else
    hal ← classified_as "HAL" value;
    if (hal : bool) then Py.setitem _export_to "HAL" (PBool true)
    else
      not_hal ← classified_as "NOT HAL" value;
      if (not_hal : bool) then Py.setitem _export_to "HAL" (PBool false)
      else Ok _export_to.

(** Body of the loop of [_private_notes]; the state is
    [(_export_to, _private_notes)].  The source is read from the occurrence
    at hand. *)
Definition _private_notes_body (st : pyval * pyval) (value : pyval)
  : result (pyval * pyval) :=
  let '(_export_to, _private_notes) := st in
  _export_to' ← export_flag _export_to value;
  v9 ← Py.get value "9" PNone;
  let source := force_single_element v9 in
  a ← Py.get value "a" PNone;
  _private_notes' ←
    for_each (λ notes _private_note,
                Py.append notes (note_entry source _private_note))
             _private_notes (force_list a);
  Ok (_export_to', _private_notes').

(** [@hep.over('_private_notes', '^595.[^DH]')] *)
Definition _private_notes (self : record) (value : pyval)
  : result (record * pyval) :=
  let _private_notes := Py.self_get self "_private_notes" (PList []) in
  let _export_to := Py.self_get self "_export_to" (PDict ∅) in
  '(_export_to', _private_notes') ←
    for_each _private_notes_body (_export_to, _private_notes) (force_list value);
  let self' := Py.mutated_in_place self "_private_notes" _private_notes' in
  Ok (<["_export_to" := _export_to']> self', _private_notes').

(** Body of the loop of [_private_notes_hal], over the occurrences. *)
Definition _private_notes_hal_body (_private_notes value : pyval)
  : result pyval :=
  a ← Py.get value "a" PNone;
  for_each (λ notes _private_note,
              Py.append notes (note_entry (PStr "HAL") _private_note))
           _private_notes (force_list a).

(** [@hep.over('_private_notes', '^595.H')] *)
Definition _private_notes_hal (self : record) (value : pyval)
  : result (record * pyval) :=
  let _private_notes := Py.self_get self "_private_notes" (PList []) in
  _private_notes' ←
    for_each _private_notes_hal_body _private_notes (force_list value);
  Ok (Py.mutated_in_place self "_private_notes" _private_notes', _private_notes').

(** [value.get('source') == 'HAL'] *)
Definition _is_from_hal (value : pyval) : result bool :=
  source ← Py.get value "source" PNone;
  Ok (Py.eq_str source "HAL").

(** Body of the loop of [_private_notes2marc]; the state is
    [(result_595, result_595_H)]. *)
Definition _private_notes2marc_body (st : pyval * pyval) (value : pyval)
  : result (pyval * pyval) :=
  let '(result_595, result_595_H) := st in
  from_hal ← _is_from_hal value;
  if (from_hal : bool) then
    a ← Py.get value "value" PNone;
    result_595_H' ← Py.append result_595_H (PDict (<["a" := a]> ∅));
    Ok (result_595, result_595_H')
  else
    s ← Py.get value "source" PNone;
    a ← Py.get value "value" PNone;
    result_595' ← Py.append result_595 (PDict (<["9" := s]> (<["a" := a]> ∅)));
    Ok (result_595', result_595_H).

(** [@hep2marc.over('595', '^_private_notes$')] *)
Definition _private_notes2marc (self : record) (value : pyval)
  : result (record * pyval) :=
  let result_595 := Py.self_get self "595" (PList []) in
  let result_595_H := Py.self_get self "595_H" (PList []) in
  '(result_595', result_595_H') ←
    for_each _private_notes2marc_body (result_595, result_595_H)
             (force_list value);
  let self' := Py.mutated_in_place self "595" result_595' in
  Ok (<["595_H" := result_595_H']> self', result_595').

(** [@hep2marc.over('595', '^_export_to$')]

    The rule reads the flag object with [in] and [value[...]]; it is a
    mapping from destination names to flags. *)
Definition _export_to2marc (value : record) : list pyval :=
  let _is_for_cds := bool_decide (is_Some (value !! "CDS")) in
  let _is_for_hal :=
    match value !! "HAL" with Some hal => Py.truthy hal | None => false end in
  let _is_not_for_hal :=
    match value !! "HAL" with
    | Some hal => negb (Py.truthy hal)
    | None => false
    end in
  if _is_for_cds then [] ++ [PDict (<["c" := PStr "CDS"]> ∅)]
  else if _is_for_hal then [] ++ [PDict (<["c" := PStr "HAL"]> ∅)]
  else if _is_not_for_hal then [] ++ [PDict (<["c" := PStr "not HAL"]> ∅)]
  else [].

(** * Vocabulary of the properties *)

(** The attribution the 500 rule computes for an occurrence: sub-field 9
    collapsed to a single element, the empty string when there is none. *)
Definition source_of (occ : record) : pyval :=
  force_single_element (default (PStr "") (occ !! "9")).

(** Two occurrences of 500 with different attributions, as one value. *)
Definition two_sources : pyval :=
  PList [PDict (<["9" := PStr "arXiv"]> (<["a" := PStr "first note"]> ∅));
         PDict (<["9" := PStr "CDS"]> (<["a" := PStr "second note"]> ∅))].

(** A resolver that resolves nothing: every reference is null. *)
Definition null_reference : pyval → string → pyval := λ _ _, PNone.

(** The 502 rule returns a dict in which [degree_type] holds [v]. *)
Definition returns_degree_type (get_record_ref : pyval → string → pyval)
    (self occ : record) (v : pyval) : Prop :=
  ∃ self' t,
    thesis_info get_record_ref self (PDict occ) = Ok (self', PDict t)
    ∧ t !! "degree_type" = Some v.

(** The keys the 502 rule writes. *)
Definition written_by_502 : list string := ["date"; "degree_type"; "institutions"].

(** The backward rule applied to what the forward rule returns. *)
Definition round_trip (forward backward : pyval → result pyval) (raw : pyval)
  : result pyval :=
  entries ← forward raw; backward entries.

(** The data model of a raw occurrence: sub-field codes of one character,
    each holding a string or a number, or a sequence of those. *)
Definition scalar (v : pyval) : bool :=
  match v with
  | PStr _ | PInt _ => true
  | _ => false
  end.

Definition subfield_value (v : pyval) : bool :=
  match v with
  | PList xs => forallb scalar xs
  | _ => scalar v
  end.

Definition well_formed_occurrence (occ : record) : bool :=
  bool_decide
    (map_Forall (λ k v, String.length k = 1 ∧ subfield_value v = true) occ).

(** A list is a sequence; everything else is handled as a single value. *)
Definition is_list (v : pyval) : bool :=
  match v with
  | PList _ => true
  | _ => false
  end.

(** What the 536 round trip gives for an occurrence: sub-fields a, c and f,
    read from the occurrence with [None] for a missing one. *)
Definition funding_subfields (raw : record) : record :=
  <["a" := default PNone (raw !! "a")]>
    (<["c" := default PNone (raw !! "c")]>
       (<["f" := default PNone (raw !! "f")]> ∅)).

(** What the 540 round trip gives for an occurrence: sub-fields a, b, u and
    3, with a collapsed to a single element. *)
Definition license_subfields (raw : record) : record :=
  <["a" := force_single_element (default PNone (raw !! "a"))]>
    (<["b" := default PNone (raw !! "b")]>
       (<["u" := default PNone (raw !! "u")]>
          (<["3" := default PNone (raw !! "3")]> ∅))).

(** Occurrences that hold every sub-field their rule reads. *)
Definition sample_funding : record :=
  <["a" := PStr "European Research Council"]>
    (<["c" := PStr "637019"]> (<["f" := PStr "MathAm"]> ∅)).

Definition sample_license : record :=
  <["a" := PStr "CC-BY-4.0"]>
    (<["b" := PStr "Elsevier"]>
       (<["u" := PStr "http://creativecommons.org/licenses/by/4.0/"]>
          (<["3" := PStr "Article"]> ∅))).

(** An integer parser that gives up on everything: every year is absent. *)
Definition never_int : pyval → pyval := λ _, PNone.

(** A 542 occurrence with both material sub-fields. *)
Definition sample_copyright : record :=
  <["d" := PStr "Elsevier B.V."]>
    (<["e" := PStr "Article"]>
       (<["3" := PStr "Published thesis as a book"]> ∅)).

(** The notes the 595.H rule appends for one occurrence. *)
Definition hal_notes_of (occ : record) : list pyval :=
  note_entry (PStr "HAL") <$> force_list (default PNone (occ !! "a")).

(** The test of the backward rule on a note entry. *)
Definition from_hal (note : record) : bool :=
  Py.eq_str (default PNone (note !! "source")) "HAL".

(** The occurrence appended to 595 for a note entry. *)
Definition to_595 (note : record) : pyval :=
  PDict (<["9" := default PNone (note !! "source")]>
         (<["a" := default PNone (note !! "value")]> ∅)).

(** The occurrence appended to 595_H for a note entry. *)
Definition to_595_H (note : record) : pyval :=
  PDict (<["a" := default PNone (note !! "value")]> ∅).

(** A 595.H occurrence that carries an attribution of its own. *)
Definition sample_hal_occurrence : record :=
  <["9" := PStr "arXiv"]> (<["a" := PStr "Deposited from HAL"]> ∅).

(** The ten decimal digits, written out. *)
Definition decimal_digits : list ascii :=
  ["0"; "1"; "2"; "3"; "4"; "5"; "6"; "7"; "8"; "9"]%char.

Definition decimal_digit (c : ascii) : bool :=
  existsb (Ascii.eqb c) decimal_digits.

Fixpoint all_decimal (s : string) : bool :=
  match s with
  | EmptyString => true
  | String c s' => decimal_digit c && all_decimal s'
  end.

(** A string of exactly [n] decimal digits. *)
Definition digit_string (n : nat) (s : string) : bool :=
  Nat.eqb (String.length s) n && all_decimal s.

(** The documented form of a defense date, "YYYY[-MM[-DD]]": a year of
    four decimal digits, then possibly a dash and a month of two digits,
    then possibly a dash and a day of two digits. *)
Inductive date_expression : string → Prop :=
| date_YYYY (y : string) :
    digit_string 4 y = true → date_expression y
| date_YYYY_MM (y m : string) :
    digit_string 4 y = true → digit_string 2 m = true →
    date_expression (y +:+ "-" +:+ m)
| date_YYYY_MM_DD (y m d : string) :
    digit_string 4 y = true → digit_string 2 m = true →
    digit_string 2 d = true →
    date_expression (y +:+ "-" +:+ m +:+ "-" +:+ d).

(** The documented pattern, "Presented on YYYY[-MM[-DD]]", found at the
    start of a text: the words in any letter case, then the date, then
    anything. *)
Definition presented_on_date (text date : string) : Prop :=
  ∃ p tail : string,
    text = p +:+ date +:+ tail
    ∧ Text.same_ignoring_case p "Presented on "
    ∧ date_expression date.

(** The text does not have the documented form. *)
Definition no_presented_on_date (text : string) : Prop :=
  ∀ date : string, ¬ presented_on_date text date.

(** The date a text of the documented form presents: the longest date
    expression that follows the words. *)
Definition captured_date (text date : string) : Prop :=
  presented_on_date text date
  ∧ ∀ date' : string,
      presented_on_date text date' → String.length date' ≤ String.length date.

(** * The remaining rules *)

(** ** Subscripting and [KeyError]

    The rules above raise [AttributeError] and [TypeError] only.  The
    backward rule for 502 subscripts the institutions it is given, which
    adds [KeyError] for a dict that lacks the key. *)

Inductive subscript_exn : Type :=
| Builtin (e : pyexn)
| KeyError.

Inductive outcome (A : Type) : Type :=
| Returns (a : A)
| Fails (e : subscript_exn).

Arguments Returns {A} a.
Arguments Fails {A} e.

#[global] Instance outcome_ret : MRet outcome := λ A a, Returns a.

#[global] Instance outcome_bind : MBind outcome := λ A B f m,
  match m with
  | Returns a => f a
  | Fails e => Fails e
  end.

(** A step that can only raise the exceptions of [result]. *)
Definition lift {A : Type} (m : result A) : outcome A :=
  match m with
  | Ok a => Returns a
  | Raise e => Fails (Builtin e)
  end.

(** [obj[k]] with a string key: a dict gives the item or raises
    [KeyError]; a list or a string wants an integer index, anything else
    cannot be subscripted. *)
Definition getitem (obj : pyval) (k : string) : outcome pyval :=
  match obj with
  | PDict d =>
      match d !! k with
      | Some v => Returns v
      | None => Fails KeyError
      end
  | _ => Fails (Builtin TypeError)
  end.

(** A list comprehension whose element expression may raise, [KeyError]
    included. *)
Fixpoint comprehension_k {A B : Type} (f : A → outcome B) (xs : list A)
  : outcome (list B) :=
  match xs with
  | [] => Returns []
  | x :: xs' => y ← f x; ys ← comprehension_k f xs'; Returns (y :: ys)
  end.

(** ** Backward rule for 502: [thesis_info2marc]

    [@hep2marc.over('502', '^thesis_info$')] *)

(** The table local to [_get_b_value]. *)
Definition B_VALUES_MAP : gmap string string :=
  list_to_map [
    ("bachelor", "Bachelor");
    ("diploma", "Diploma");
    ("habilitation", "Habilitation");
    ("laurea", "Laurea");
    ("master", "Master");
    ("other", "Thesis");
    ("phd", "PhD")
  ].

(** The nested function returns [None] when [degree_type] is false. *)
Definition _get_b_value (value : pyval) : result pyval :=
  degree_type ← Py.get value "degree_type" PNone;
  if Py.truthy degree_type then table_get B_VALUES_MAP degree_type
  else Ok PNone.

Section ThesisInfo2marc.

(** [str(obj)] for an object that is not a string: what ['{}'.format(obj)]
    puts in place of the braces.  A string is put there as it is. *)
Variable py_str : pyval → string.

(** ['Presented on {}'.format(obj)] *)
Definition presented_on (obj : pyval) : string :=
  "Presented on " +:+ match obj with
                      | PStr s => s
                      | _ => py_str obj
                      end.

(** [self.get('502', {})] is read into [result_502], which is then bound to
    a new dict: the 502 found in the record takes no part in the result. *)
Definition thesis_info2marc (self : record) (value : pyval)
  : outcome (record * pyval) :=
  let result_500 := Py.self_get self "500" (PList []) in
  defense_date ← lift (Py.get value "defense_date" PNone);
  result_500' ←
    (if Py.truthy defense_date
     then lift (Py.append result_500
                  (PDict (<["a" := PStr (presented_on defense_date)]> ∅)))
     else Returns result_500);
  b ← lift (_get_b_value value);
  institutions ← lift (Py.get value "institutions" PNone);
  c ← comprehension_k (λ el, getitem el "name") (force_list institutions);
  d ← lift (Py.get value "date" PNone);
  let result_502 := PDict (<["b" := b]> (<["c" := PList c]> (<["d" := d]> ∅))) in
  Returns (<["500" := result_500']> self, result_502).

End ThesisInfo2marc.

(** ** Abstracts: 520 *)

(** The body of [abstracts]: the entries for the values of sub-field a,
    then those for the values of sub-field h, all with the source of the
    occurrence. *)
Definition abstracts_1 (value : pyval) : result (list pyval) :=
  v9 ← Py.get value "9" PNone;
  let source := force_single_element v9 in
  a ← Py.get value "a" PNone;
  h ← Py.get value "h" PNone;
  Ok ([] ++ (note_entry source <$> force_list a)
         ++ (note_entry source <$> force_list h)).

(** [@utils.flatten @utils.for_each_value]: the decorators of the dojson
    library, applied to a rule that returns a list: the lists returned for
    the values are chained into one. *)
Definition flatten_for_each_value (f : pyval → result (list pyval))
    (values : pyval) : result pyval :=
  match values with
  | PList vs => rs ← comprehension f vs; Ok (PList (concat rs))
  | _ => r ← f values; Ok (PList (concat [r]))
  end.

(** [@hep.over('abstracts', '^520..') @utils.flatten @utils.for_each_value] *)
Definition abstracts : pyval → result pyval :=
  flatten_for_each_value abstracts_1.

Definition abstract2marc_1 (value : pyval) : result pyval :=
  source ← Py.get value "source" PNone;
  if Py.eq_str source "HEPDATA" then
    v ← Py.get value "value" PNone;
    Ok (PDict (<["9" := source]> (<["h" := v]> ∅)))
  else
    v ← Py.get value "value" PNone;
    Ok (PDict (<["9" := source]> (<["a" := v]> ∅))).

(** [@hep2marc.over('520', '^abstracts$') @utils.for_each_value] *)
Definition abstract2marc : pyval → result pyval :=
  for_each_value abstract2marc_1.

(** ** DESY bookkeeping: 595.D *)

Definition _desy_bookkeeping_1 (value : pyval) : result pyval :=
  d ← Py.get value "d" PNone;
  a ← Py.get value "a" PNone;
  s ← Py.get value "s" PNone;
  Ok (PDict (<["date" := d]>
            (<["expert" := force_single_element a]>
            (<["status" := s]> ∅)))).

(** [@hep.over('_desy_bookkeeping', '^595.D') @utils.for_each_value] *)
Definition _desy_bookkeeping : pyval → result pyval :=
  for_each_value _desy_bookkeeping_1.

Definition _desy_bookkeeping2marc_1 (value : pyval) : result pyval :=
  a ← Py.get value "expert" PNone;
  d ← Py.get value "date" PNone;
  s ← Py.get value "status" PNone;
  Ok (PDict (<["a" := a]> (<["d" := d]> (<["s" := s]> ∅)))).

(** [@hep2marc.over('595_D', '^_desy_bookkeeping$') @utils.for_each_value] *)
Definition _desy_bookkeeping2marc : pyval → result pyval :=
  for_each_value _desy_bookkeeping2marc_1.

(** * Vocabulary of the further properties *)

(** The sub-field a backward 520 occurrence holds its text in: decided by
    the source alone. *)
Definition abstract_code (source : pyval) : string :=
  if Py.eq_str source "HEPDATA" then "h" else "a".

(** The texts of a 520 occurrence, in the order the forward rule reads
    them: the values of sub-field a, then those of sub-field h. *)
Definition abstract_texts (occ : record) : list pyval :=
  force_list (default PNone (occ !! "a"))
  ++ force_list (default PNone (occ !! "h")).

(** Sub-field 9 of an occurrence collapsed to a single element, [None]
    when there is none. *)
Definition collapsed_9 (occ : record) : pyval :=
  force_single_element (default PNone (occ !! "9")).

(** What the 595.D round trip gives for an occurrence: sub-fields a, d and
    s, with a collapsed to a single element. *)
Definition desy_subfields (raw : record) : record :=
  <["a" := force_single_element (default PNone (raw !! "a"))]>
    (<["d" := default PNone (raw !! "d")]>
       (<["s" := default PNone (raw !! "s")]> ∅)).

(** A value that is not a dict. *)
Definition not_a_dict (v : pyval) : Prop := ∀ d : record, v ≠ PDict d.

(** How the forward 595 rule reads the classification of an occurrence:
    sub-field c in upper case, the empty string when there is none. *)
Definition marker (occ : record) : string :=
  match occ !! "c" with
  | Some (PStr s) => Text.upper s
  | _ => ""
  end.

(** Sub-field c is absent or a string. *)
Definition c_is_text (occ : record) : bool :=
  match occ !! "c" with
  | None | Some (PStr _) => true
  | _ => false
  end.

(** The export flags after one more occurrence. *)
Definition flag_step (_export_to : record) (occ : record) : record :=
  if String.eqb (marker occ) "CDS" then <["CDS" := PBool true]> _export_to
  else if String.eqb (marker occ) "HAL" then <["HAL" := PBool true]> _export_to
  else if String.eqb (marker occ) "NOT HAL"
       then <["HAL" := PBool false]> _export_to
  else _export_to.

(** The notes the general 595 rule appends for one occurrence. *)
Definition private_notes_of (occ : record) : list pyval :=
  note_entry (collapsed_9 occ) <$> force_list (default PNone (occ !! "a")).

(** The occurrence the backward export rule gives for a classification. *)
Definition export_occurrence (m : string) : list pyval :=
  if String.eqb m "CDS" then [PDict {["c" := PStr "CDS"]}]
  else if String.eqb m "HAL" then [PDict {["c" := PStr "HAL"]}]
  else if String.eqb m "NOT HAL" then [PDict {["c" := PStr "not HAL"]}]
  else [].

(** * Properties *)

(** ** Running the rules on one occurrence *)


(** A sequence of occurrences has no [get] method: the attribution is read
    from the argument before the loop over the occurrences starts. *)
Lemma public_notes_sequence_raises (self : record) (occs : list pyval) :
  public_notes self (PList occs) = Raise AttributeError.
Proof. reflexivity. Qed.

(** One text of one occurrence: a defense date goes to the thesis
    information, any other text becomes a note with the given source. *)
Lemma public_notes_body_text (source : pyval) (ti : record)
    (old : list pyval) (text : string) :
  public_notes_body source (PDict ti, PList old) (PStr text) =
    match Regex.defense_date text with
    | Some d => Ok (PDict (<["defense_date" := PStr d]> ti), PList old)
    | None => Ok (PDict ti, PList (old ++ [note_entry source (PStr text)]))
    end.
Proof.
  unfold public_notes_body. simpl.
  destruct (Regex.defense_date text); reflexivity.
Qed.

(** All the texts of one occurrence: every note appended carries the one
    source the loop was entered with. *)
Lemma public_notes_body_loop (source : pyval) (texts : list string) :
  ∀ (ti : record) (old : list pyval),
    ∃ (ti' : record) (new : list pyval),
      for_each (public_notes_body source) (PDict ti, PList old)
               (PStr <$> texts) = Ok (PDict ti', PList (old ++ new))
      ∧ Forall (λ note, ∃ text, note = note_entry source (PStr text)) new.
Proof.
  induction texts as [| text texts IH]; intros ti old.
  - exists ti, []. simpl. rewrite app_nil_r. split; [reflexivity | constructor].
  - rewrite fmap_cons.
    change (for_each ?f ?s (?x :: ?xs)) with (f s x ≫= λ s', for_each f s' xs).
    rewrite public_notes_body_text.
    destruct (Regex.defense_date text) as [d |]; simpl.
    + apply IH.
    + destruct (IH ti (old ++ [note_entry source (PStr text)]))
        as (ti' & new & Hrun & Hnew).
      exists ti', (note_entry source (PStr text) :: new).
      rewrite Hrun, <- app_assoc. split; [reflexivity |].
      constructor; [eexists; reflexivity | exact Hnew].
Qed.

(** The 500 rule on a single occurrence with any number of texts: the notes
    it appends all carry the source of that occurrence. *)
Lemma public_notes_single_occurrence (self occ : record) (old : list pyval)
    (ti : record) (texts : list string) :
  Py.self_get self "public_notes" (PList []) = PList old →
  Py.self_get self "thesis_info" (PDict ∅) = PDict ti →
  force_list (default PNone (occ !! "a")) = PStr <$> texts →
  ∃ (self' : record) (new : list pyval),
    public_notes self (PDict occ) = Ok (self', PList (old ++ new))
    ∧ Forall (λ note, ∃ text, note = note_entry (source_of occ) (PStr text))
             new.
Proof.
  intros Hn Ht Ha. unfold public_notes. rewrite Hn, Ht. simpl.
  unfold public_notes_occurrence. simpl. rewrite Ha.
  destruct (public_notes_body_loop (source_of occ) texts ti old)
    as (ti' & new & Hrun & Hnew).
  unfold source_of in Hrun. rewrite Hrun. simpl.
  eexists _, new. split; [reflexivity | exact Hnew].
Qed.

(** ** Attribution of public notes *)

(** C1. Two occurrences of 500 with different attributions, given to the
    rule together: the documentation asks for one note per occurrence, each with the
    source of its own occurrence.  [public_notes] reads sub-field 9 from the
    whole argument before it loops over the occurrences, and raises
    [AttributeError] at that point; the sibling rule [_private_notes], which
    reads sub-field 9 inside the loop, gives each note the source of its
    occurrence on the same input. *)
Theorem public_notes_source_read_before_loop :
  public_notes ∅ two_sources = Raise AttributeError
  ∧ ∃ self',
      _private_notes ∅ two_sources =
        Ok (self', PList [note_entry (PStr "arXiv") (PStr "first note");
                          note_entry (PStr "CDS") (PStr "second note")]).
Proof.
  split; [apply public_notes_sequence_raises |].
  eexists. vm_compute. reflexivity.
Qed.

(** ** Strings *)

Lemma append_cons (c : ascii) (s t : string) :
  String c s +:+ t = String c (s +:+ t).
Proof. reflexivity. Qed.

Lemma append_assoc (s t u : string) : (s +:+ t) +:+ u = s +:+ (t +:+ u).
Proof.
  induction s as [| c s IH]; [reflexivity |].
  rewrite !append_cons, IH. reflexivity.
Qed.

Lemma length_append (s t : string) :
  String.length (s +:+ t) = String.length s + String.length t.
Proof.
  induction s as [| c s IH]; [reflexivity |].
  rewrite append_cons. simpl. rewrite IH. reflexivity.
Qed.

Lemma append_nil_r (s : string) : s +:+ "" = s.
Proof.
  induction s as [| c s IH]; [reflexivity |].
  rewrite append_cons, IH. reflexivity.
Qed.

Lemma append_nil_l (s : string) : "" +:+ s = s.
Proof. reflexivity. Qed.

(** Appends associated to the right, with the characters pulled out. *)
Ltac norm_append :=
  repeat (rewrite append_assoc || rewrite append_cons
          || rewrite append_nil_l || rewrite append_nil_r).

Lemma length_lower (s : string) :
  String.length (Text.lower s) = String.length s.
Proof.
  induction s as [| c s IH]; simpl; [reflexivity | rewrite IH; reflexivity].
Qed.

Lemma append_inj_length (s1 s2 t1 t2 : string) :
  String.length s1 = String.length s2 →
  s1 +:+ t1 = s2 +:+ t2 → s1 = s2 ∧ t1 = t2.
Proof.
  revert s2. induction s1 as [| c s1 IH]; intros [| c' s2] Hl H;
    try discriminate Hl.
  - split; [reflexivity | exact H].
  - rewrite !append_cons in H. injection H as -> H. injection Hl as Hl.
    destruct (IH _ Hl H) as [-> ->]. split; reflexivity.
Qed.

(** ** The defense-date pattern and the documented form *)

Lemma literal_ignorecase_split (lit text rest : string) :
  Regex.literal_ignorecase lit text = Some rest →
  ∃ p, text = p +:+ rest ∧ Text.lower p = Text.lower lit.
Proof.
  revert text. induction lit as [| a lit IH]; intros text H.
  - exists "". simpl in H. injection H as ->. split; reflexivity.
  - destruct text as [| b text]; [discriminate H |]. simpl in H.
    destruct (Ascii.eqb_spec (Text.lower_char a) (Text.lower_char b)) as [Hab |];
      [| discriminate H].
    destruct (IH _ H) as (p & -> & Hp).
    exists (String b p). simpl. rewrite Hp, Hab. split; reflexivity.
Qed.

Lemma literal_ignorecase_append (lit p rest : string) :
  Text.lower p = Text.lower lit →
  Regex.literal_ignorecase lit (p +:+ rest) = Some rest.
Proof.
  revert p. induction lit as [| a lit IH]; intros p Hp.
  - destruct p; [reflexivity | discriminate Hp].
  - destruct p as [| b p]; [discriminate Hp |]. simpl in Hp.
    injection Hp as Hb Hp. simpl. rewrite Hb, Ascii.eqb_refl. apply IH, Hp.
Qed.

Lemma digits_split (n : nat) (text ds rest : string) :
  Regex.digits n text = Some (ds, rest) →
  text = ds +:+ rest ∧ String.length ds = n.
Proof.
  revert text ds rest. induction n as [| n IH]; intros text ds rest H.
  - simpl in H. destruct text; injection H as <- <-; split; reflexivity.
  - destruct text as [| c text]; [discriminate H |]. simpl in H.
    destruct (Text.is_digit c); [| discriminate H].
    destruct (Regex.digits n text) as [[ds' rest'] |] eqn:Hd; [| discriminate H].
    simpl in H. injection H as <- <-.
    destruct (IH _ _ _ Hd) as [-> Hlen]. simpl. rewrite Hlen. split; reflexivity.
Qed.

(** The digits read do not depend on what follows them. *)
Lemma digits_append (n : nat) (text ds rest tail : string) :
  Regex.digits n text = Some (ds, rest) →
  Regex.digits n (ds +:+ tail) = Some (ds, tail).
Proof.
  revert text ds rest. induction n as [| n IH]; intros text ds rest H.
  - simpl in H. destruct text; injection H as <- <-; simpl; destruct tail; reflexivity.
  - destruct text as [| c text]; [discriminate H |]. simpl in H.
    destruct (Text.is_digit c) eqn:Hc; [| discriminate H].
    destruct (Regex.digits n text) as [[ds' rest'] |] eqn:Hd; [| discriminate H].
    simpl in H. injection H as <- <-. simpl. rewrite Hc, (IH _ _ _ Hd). reflexivity.
Qed.

Lemma dash_block_split (text blk rest : string) :
  Regex.dash_block text = Some (blk, rest) →
  text = blk +:+ rest ∧ String.length blk = 3.
Proof.
  unfold Regex.dash_block. intros H.
  destruct text as [| c text]; [discriminate H |].
  destruct (Ascii.eqb_spec c "-") as [-> | Hc].
  - destruct (Regex.digits 2 text) as [[ds rest'] |] eqn:Hd; [| discriminate H].
    simpl in H. injection H as <- <-.
    destruct (digits_split _ _ _ _ Hd) as [-> Hlen]. simpl. rewrite Hlen.
    split; reflexivity.
  - destruct c as [[] [] [] [] [] [] [] []]; try discriminate H.
    contradiction Hc. reflexivity.
Qed.

Lemma dash_block_dash (text : string) :
  Regex.dash_block (String "-" text) =
    '(ds, rest) ← Regex.digits 2 text; Some (String "-" ds, rest).
Proof. reflexivity. Qed.

Lemma dash_block_append (text blk rest tail : string) :
  Regex.dash_block text = Some (blk, rest) →
  Regex.dash_block (blk +:+ tail) = Some (blk, tail).
Proof.
  intros H. unfold Regex.dash_block in H.
  destruct text as [| c text]; [discriminate H |].
  destruct (Ascii.eqb_spec c "-") as [-> | Hc].
  - destruct (Regex.digits 2 text) as [[ds rest'] |] eqn:Hd; [| discriminate H].
    simpl in H. injection H as <- <-.
    rewrite append_cons, dash_block_dash.
    rewrite (digits_append _ _ _ _ tail Hd). reflexivity.
  - destruct c as [[] [] [] [] [] [] [] []]; try discriminate H.
    contradiction Hc. reflexivity.
Qed.

Lemma dash_blocks_split (n : nat) (text : string) :
  ∃ (k : nat) (rest : string),
    text = Regex.dash_blocks n text +:+ rest
    ∧ k ≤ n
    ∧ String.length (Regex.dash_blocks n text) = 3 * k.
Proof.
  revert text. induction n as [| n IH]; intros text.
  - exists 0, text. simpl. split; [reflexivity | split; lia].
  - simpl. destruct (Regex.dash_block text) as [[blk rest] |] eqn:Hb.
    + destruct (dash_block_split _ _ _ Hb) as [-> Hlen].
      destruct (IH rest) as (k & rest' & Hrest & Hk & Hl).
      exists (S k), rest'. rewrite append_assoc, <- Hrest.
      split; [reflexivity |]. split; [lia |].
      rewrite length_append, Hlen, Hl. lia.
    + exists 0, text. simpl. split; [reflexivity | split; lia].
Qed.

(** Reading the blocks again from what was read gives the same blocks. *)
Lemma dash_blocks_idempotent (n : nat) (text : string) :
  Regex.dash_blocks n (Regex.dash_blocks n text) = Regex.dash_blocks n text.
Proof.
  revert text. induction n as [| n IH]; intros text; [reflexivity |].
  simpl. destruct (Regex.dash_block text) as [[blk rest] |] eqn:Hb.
  - rewrite (dash_block_append _ _ _ (Regex.dash_blocks n rest) Hb).
    rewrite IH. reflexivity.
  - reflexivity.
Qed.

Lemma defense_date_Some (text d : string) :
  Regex.defense_date text = Some d →
  ∃ rest year rest',
    Regex.literal_ignorecase "Presented on " text = Some rest
    ∧ Regex.digits 4 rest = Some (year, rest')
    ∧ d = year +:+ Regex.dash_blocks 2 rest'.
Proof.
  unfold Regex.defense_date. intros H.
  destruct (Regex.literal_ignorecase "Presented on " text) as [rest |];
    [| discriminate H].
  unfold mbind, option_bind in H.
  destruct (Regex.digits 4 rest) as [[year rest'] |] eqn:Hd; [| discriminate H].
  injection H as <-. exists rest, year, rest'. auto.
Qed.

Lemma is_digit_decimal (c : ascii) : Text.is_digit c = decimal_digit c.
Proof. destruct c as [[] [] [] [] [] [] [] []]; reflexivity. Qed.

Lemma digit_string_cons (n : nat) (c : ascii) (s : string) :
  digit_string (S n) (String c s) = decimal_digit c && digit_string n s.
Proof.
  unfold digit_string. simpl String.length. simpl all_decimal.
  change (S (String.length s) =? S n) with (String.length s =? n).
  destruct (String.length s =? n), (decimal_digit c); reflexivity.
Qed.

Lemma digits_digit_string (n : nat) (text ds rest : string) :
  Regex.digits n text = Some (ds, rest) →
  text = ds +:+ rest ∧ digit_string n ds = true.
Proof.
  revert text ds rest. induction n as [| n IH]; intros text ds rest H.
  - simpl in H. destruct text; injection H as <- <-; split; reflexivity.
  - destruct text as [| c text]; [discriminate H |]. simpl in H.
    destruct (Text.is_digit c) eqn:Hc; [| discriminate H].
    destruct (Regex.digits n text) as [[ds' rest'] |] eqn:Hd; [| discriminate H].
    simpl in H. injection H as <- <-.
    destruct (IH _ _ _ Hd) as [-> Hds].
    rewrite digit_string_cons, <- is_digit_decimal, Hc, Hds.
    split; reflexivity.
Qed.

Lemma digits_of_digit_string (n : nat) (ds tail : string) :
  digit_string n ds = true → Regex.digits n (ds +:+ tail) = Some (ds, tail).
Proof.
  revert ds. induction n as [| n IH]; intros ds H.
  - destruct ds; [| discriminate H]. destruct tail; reflexivity.
  - destruct ds as [| c ds]; [discriminate H |].
    rewrite digit_string_cons in H. apply andb_true_iff in H as [Hc Hds].
    rewrite append_cons. simpl. rewrite is_digit_decimal, Hc, (IH _ Hds).
    reflexivity.
Qed.

Lemma dash_block_shape (text blk rest : string) :
  Regex.dash_block text = Some (blk, rest) →
  ∃ m : string,
    blk = String "-" m ∧ digit_string 2 m = true ∧ text = blk +:+ rest.
Proof.
  intros H. unfold Regex.dash_block in H.
  destruct text as [| c text]; [discriminate H |].
  destruct (Ascii.eqb_spec c "-") as [-> | Hc].
  - destruct (Regex.digits 2 text) as [[ds rest'] |] eqn:Hd; [| discriminate H].
    simpl in H. injection H as <- <-.
    destruct (digits_digit_string _ _ _ _ Hd) as [-> Hds].
    exists ds. auto.
  - destruct c as [[] [] [] [] [] [] [] []]; try discriminate H.
    contradiction Hc. reflexivity.
Qed.

Lemma dash_block_of_digit_string (m tail : string) :
  digit_string 2 m = true →
  Regex.dash_block (String "-" (m +:+ tail)) = Some (String "-" m, tail).
Proof.
  intros H. rewrite dash_block_dash, (digits_of_digit_string _ _ _ H).
  reflexivity.
Qed.

Lemma digit_string_length (n : nat) (s : string) :
  digit_string n s = true → String.length s = n.
Proof.
  unfold digit_string. intros H. apply andb_true_iff in H as [H _].
  apply Nat.eqb_eq, H.
Qed.

(** A date expression is 4, 7 or 10 characters long. *)
Lemma date_expression_length (d : string) :
  date_expression d →
  String.length d = 4 ∨ String.length d = 7 ∨ String.length d = 10.
Proof.
  intros [y Hy | y m Hy Hm | y m dd Hy Hm Hd];
    rewrite ?length_append, ?(digit_string_length _ _ Hy);
    rewrite ?(digit_string_length _ _ Hm); simpl.
  - left. reflexivity.
  - right. left. reflexivity.
  - right. right. rewrite (digit_string_length _ _ Hd). reflexivity.
Qed.

(** What the pattern captures has the documented form. *)
Lemma defense_date_presented (text d : string) :
  Regex.defense_date text = Some d → presented_on_date text d.
Proof.
  intros H.
  destruct (defense_date_Some _ _ H) as (rest & year & rest' & Hl & Hd & ->).
  destruct (literal_ignorecase_split _ _ _ Hl) as (p & -> & Hp).
  destruct (digits_digit_string _ _ _ _ Hd) as [-> Hy].
  change (Regex.dash_blocks 2 rest') with
    (match Regex.dash_block rest' with
     | Some (blk, rest) =>
         blk +:+ match Regex.dash_block rest with
                 | Some (blk', _) => blk' +:+ ""
                 | None => ""
                 end
     | None => ""
     end).
  destruct (Regex.dash_block rest') as [[blk1 rest1] |] eqn:Hb1.
  - destruct (dash_block_shape _ _ _ Hb1) as (m & -> & Hm & ->).
    destruct (Regex.dash_block rest1) as [[blk2 rest2] |] eqn:Hb2.
    + destruct (dash_block_shape _ _ _ Hb2) as (dd & -> & Hdd & ->).
      exists p, rest2. split; [norm_append; reflexivity |].
      split; [exact Hp |].
      assert (year +:+ String "-" m +:+ String "-" dd +:+ "" =
              year +:+ "-" +:+ m +:+ "-" +:+ dd) as ->
        by (norm_append; reflexivity).
      apply date_YYYY_MM_DD; assumption.
    + exists p, rest1. split; [norm_append; reflexivity |].
      split; [exact Hp |].
      assert (year +:+ String "-" m +:+ "" = year +:+ "-" +:+ m) as ->
        by (norm_append; reflexivity).
      apply date_YYYY_MM; assumption.
  - exists p, rest'. rewrite !append_nil_r.
    split; [reflexivity |]. split; [exact Hp |].
    apply date_YYYY, Hy.
Qed.

(** A text of the documented form is matched, and what is captured is at
    least as long as any date expression found after the words. *)
Lemma presented_defense_date (text d' : string) :
  presented_on_date text d' →
  ∃ d : string,
    Regex.defense_date text = Some d ∧ String.length d' ≤ String.length d.
Proof.
  intros (p & tail & -> & Hp & Hd). unfold Regex.defense_date.
  rewrite (literal_ignorecase_append _ _ _ Hp). unfold mbind, option_bind.
  destruct Hd as [y Hy | y m Hy Hm | y m dd Hy Hm Hdd].
  - rewrite (digits_of_digit_string _ _ _ Hy).
    eexists. split; [reflexivity |]. rewrite length_append. lia.
  - norm_append. rewrite (digits_of_digit_string _ _ _ Hy).
    eexists. split; [reflexivity |].
    change (Regex.dash_blocks 2 ?t) with
      (match Regex.dash_block t with
       | Some (blk, rest) => blk +:+ Regex.dash_blocks 1 rest
       | None => ""
       end).
    rewrite (dash_block_of_digit_string _ _ Hm).
    norm_append. rewrite !length_append. simpl String.length.
    rewrite !length_append. lia.
  - norm_append. rewrite (digits_of_digit_string _ _ _ Hy).
    eexists. split; [reflexivity |].
    change (Regex.dash_blocks 2 ?t) with
      (match Regex.dash_block t with
       | Some (blk, rest) =>
           blk +:+ match Regex.dash_block rest with
                   | Some (blk', _) => blk' +:+ ""
                   | None => ""
                   end
       | None => ""
       end).
    rewrite (dash_block_of_digit_string _ _ Hm).
    rewrite (dash_block_of_digit_string _ _ Hdd).
    norm_append. rewrite !length_append. simpl String.length.
    rewrite !length_append. simpl String.length. lia.
Qed.

(** The words before the date are thirteen characters long. *)
Lemma presented_on_length (p : string) :
  Text.same_ignoring_case p "Presented on " → String.length p = 13.
Proof.
  unfold Text.same_ignoring_case. intros H.
  rewrite <- (length_lower p), H. reflexivity.
Qed.

(** The pattern captures the date the text presents, and nothing else. *)
Lemma defense_date_captured (text d : string) :
  Regex.defense_date text = Some d ↔ captured_date text d.
Proof.
  split.
  - intros H. split; [apply defense_date_presented, H |].
    intros d' Hd'. destruct (presented_defense_date _ _ Hd') as (d0 & H0 & Hle).
    rewrite H in H0. injection H0 as <-. exact Hle.
  - intros [Hd Hmax].
    destruct (presented_defense_date _ _ Hd) as (d0 & H0 & Hle).
    pose proof (defense_date_presented _ _ H0) as Hd0.
    pose proof (Hmax _ Hd0) as Hge.
    destruct Hd as (p & tail & Htext & Hp & _).
    destruct Hd0 as (p0 & tail0 & Htext0 & Hp0 & _).
    rewrite Htext in Htext0.
    assert (String.length p = String.length p0) as Hlen
      by (rewrite (presented_on_length _ Hp), (presented_on_length _ Hp0);
          reflexivity).
    destruct (append_inj_length _ _ _ _ Hlen Htext0) as [_ Hrest].
    assert (String.length d = String.length d0) as Hlen' by lia.
    destruct (append_inj_length _ _ _ _ Hlen' Hrest) as [-> _].
    exact H0.
Qed.

(** The pattern fails on the texts that do not have the documented form,
    and on no other. *)
Lemma defense_date_none (text : string) :
  Regex.defense_date text = None ↔ no_presented_on_date text.
Proof.
  split.
  - intros H d Hd. destruct (presented_defense_date _ _ Hd) as (d0 & H0 & _).
    rewrite H in H0. discriminate H0.
  - intros H. destruct (Regex.defense_date text) as [d |] eqn:Hd;
      [| reflexivity].
    contradiction (H d). apply defense_date_presented, Hd.
Qed.

(** ** Defense date *)


Example defense_date_ignores_case_and_tail :
  Regex.defense_date "presented ON 2001-02-03 in Geneva" = Some "2001-02-03".
Proof. reflexivity. Qed.

Example defense_date_short_month :
  Regex.defense_date "Presented on 1999-5" = Some "1999".
Proof. reflexivity. Qed.

Example defense_date_anchored :
  Regex.defense_date "Thesis. Presented on 1999" = None.
Proof. reflexivity. Qed.



(** ** Letter case *)

Lemma upper_lower_char (c : ascii) :
  Text.upper_char (Text.lower_char c) = Text.upper_char c.
Proof. destruct c as [[] [] [] [] [] [] [] []]; reflexivity. Qed.

Lemma upper_lower (s : string) : Text.upper (Text.lower s) = Text.upper s.
Proof.
  induction s as [| c s IH]; simpl; [reflexivity |].
  rewrite upper_lower_char, IH. reflexivity.
Qed.

(** Upper-casing forgets the letter case of its argument. *)
Lemma upper_same_ignoring_case (s t : string) :
  Text.same_ignoring_case s t → Text.upper s = Text.upper t.
Proof.
  unfold Text.same_ignoring_case. intros H.
  rewrite <- (upper_lower s), <- (upper_lower t), H. reflexivity.
Qed.


(** ** Degree type *)

(** A non-empty string in sub-field b is looked up in upper case, with
    "other" as the default. *)
Lemma _get_degree_type_string (occ : record) (s : string) :
  occ !! "b" = Some (PStr s) → s ≠ "" →
  _get_degree_type (PDict occ) =
    Ok (PStr (default "other" (DEGREE_TYPES_MAP !! Text.upper s))).
Proof.
  intros Hb Hs. unfold _get_degree_type. simpl. rewrite Hb. simpl.
  unfold force_single_element. simpl.
  destruct (String.eqb_spec s ""); [contradiction | reflexivity].
Qed.

(** No sub-field b, or an empty one: the nested function returns [None]. *)
Lemma _get_degree_type_empty (occ : record) :
  occ !! "b" = None ∨ occ !! "b" = Some (PStr "") →
  _get_degree_type (PDict occ) = Ok PNone.
Proof.
  intros [Hb | Hb]; unfold _get_degree_type; simpl; rewrite Hb; reflexivity.
Qed.

(** ** Running the 502 rule *)

Section ThesisInfoRun.

Variable get_record_ref : pyval → string → pyval.

Lemma _get_institutions_dict (occ : record) :
  _get_institutions get_record_ref (PDict occ) =
    let c_values := force_list (default PNone (occ !! "c")) in
    let z_values := force_list (default PNone (occ !! "z")) in
    if negb (Nat.eqb (length c_values) (length z_values))
    then Ok (PList (name_only <$> c_values))
    else Ok (PList (with_record get_record_ref <$> zip c_values z_values)).
Proof. reflexivity. Qed.

(** On an occurrence whose degree type is computed without raising, the
    rule stores the three fields in the object fetched from the record. *)
Lemma thesis_info_run (self occ ti : record) (degree_type : pyval) :
  Py.self_get self "thesis_info" (PDict ∅) = PDict ti →
  _get_degree_type (PDict occ) = Ok degree_type →
  ∃ institutions,
    _get_institutions get_record_ref (PDict occ) = Ok institutions
    ∧ thesis_info get_record_ref self (PDict occ) =
        let t := PDict (<["institutions" := institutions]>
                        (<["degree_type" := degree_type]>
                         (<["date" := force_single_element
                                        (default PNone (occ !! "d"))]> ti))) in
        Ok (Py.mutated_in_place self "thesis_info" t, t).
Proof.
  intros Ht Hd. unfold thesis_info. rewrite Ht, Hd.
  rewrite _get_institutions_dict. simpl.
  destruct (negb _); eexists; (split; [reflexivity |]); reflexivity.
Qed.

(** Whenever the rule returns, it was given a dict, the degree type was
    computed without raising, and the object in the record was a dict. *)
Lemma thesis_info_returns (self : record) (value : pyval) self' r :
  thesis_info get_record_ref self value = Ok (self', r) →
  ∃ occ ti degree_type,
    value = PDict occ
    ∧ Py.self_get self "thesis_info" (PDict ∅) = PDict ti
    ∧ _get_degree_type (PDict occ) = Ok degree_type.
Proof.
  unfold thesis_info. intros H.
  destruct value as [| | | | | occ]; try discriminate H.
  destruct (Py.self_get self "thesis_info" (PDict ∅)) as [| | | | | ti];
    try discriminate H.
  destruct (_get_degree_type (PDict occ)) as [dt | e] eqn:Hd.
  - exists occ, ti, dt. auto.
  - simpl in H. discriminate H.
Qed.

End ThesisInfoRun.

Lemma returns_degree_type_intro get_record_ref (self occ ti : record) v :
  Py.self_get self "thesis_info" (PDict ∅) = PDict ti →
  _get_degree_type (PDict occ) = Ok v →
  returns_degree_type get_record_ref self occ v.
Proof.
  intros Ht Hd.
  destruct (thesis_info_run get_record_ref _ _ _ _ Ht Hd) as (i & _ & Hrun).
  unfold returns_degree_type. rewrite Hrun. simpl.
  do 2 eexists. split; [reflexivity |].
  rewrite lookup_insert_ne by discriminate. apply lookup_insert_eq.
Qed.

(** C2, as the documentation states it, fails without sub-field b: the object the
    rule returns has the key [degree_type], holding [None]. *)
Lemma degree_type_key_present_without_b :
  ∃ self' t,
    thesis_info null_reference ∅ (PDict ∅) = Ok (self', PDict t)
    ∧ t !! "degree_type" = Some PNone
    ∧ t !! "degree_type" ≠ None.
Proof.
  do 2 eexists. split; [vm_compute; reflexivity |].
  split; [reflexivity | discriminate].
Qed.

(** C2, amended. In the object the 502 rule returns, [degree_type] is "phd"
    for "Ph.D. Thesis" in any letter case, "other" for "Rapport de Stage",
    "other" for any other non-empty string in ASCII that the table does not
    list once in upper case, and the key is present holding [None] when
    sub-field b is absent or empty. *)
Theorem degree_type_normalisation :
  ∀ (get_record_ref : pyval → string → pyval) (self occ ti : record),
    Py.self_get self "thesis_info" (PDict ∅) = PDict ti →
    (∀ s : string,
       Text.same_ignoring_case s "Ph.D. Thesis" →
       occ !! "b" = Some (PStr s) →
       returns_degree_type get_record_ref self occ (PStr "phd"))
    ∧ (occ !! "b" = Some (PStr "Rapport de Stage") →
       returns_degree_type get_record_ref self occ (PStr "other"))
    ∧ (∀ s : string,
         Text.is_ascii s = true →
         s ≠ "" →
         DEGREE_TYPES_MAP !! Text.upper s = None →
         occ !! "b" = Some (PStr s) →
         returns_degree_type get_record_ref self occ (PStr "other"))
    ∧ (occ !! "b" = None ∨ occ !! "b" = Some (PStr "") →
       returns_degree_type get_record_ref self occ PNone).
Proof.
  intros gr self occ ti Ht. repeat split.
  - intros s Hs Hb. apply (returns_degree_type_intro _ _ _ _ _ Ht).
    assert (s ≠ "") as Hne by (intros ->; discriminate Hs).
    rewrite (_get_degree_type_string _ _ Hb Hne).
    rewrite (upper_same_ignoring_case _ _ Hs). reflexivity.
  - intros Hb. apply (returns_degree_type_intro _ _ _ _ _ Ht).
    rewrite (_get_degree_type_string _ _ Hb) by discriminate. reflexivity.
  - intros s _ Hne Hm Hb. apply (returns_degree_type_intro _ _ _ _ _ Ht).
    rewrite (_get_degree_type_string _ _ Hb Hne), Hm. reflexivity.
  - intros Hb. apply (returns_degree_type_intro _ _ _ _ _ Ht).
    apply _get_degree_type_empty, Hb.
Qed.

Lemma degree_type_normalisation_witness :
  returns_degree_type null_reference ∅ {["b" := PStr "pH.d. thESIS"]} (PStr "phd")
  ∧ returns_degree_type null_reference ∅ {["b" := PStr "Rapport de Stage"]}
      (PStr "other")
  ∧ returns_degree_type null_reference ∅ {["b" := PStr "Doctorat"]} (PStr "other")
  ∧ returns_degree_type null_reference ∅ ∅ PNone.
Proof.
  repeat split.
  - destruct (degree_type_normalisation
                null_reference ∅ {["b" := PStr "pH.d. thESIS"]} ∅) as [H _];
      [reflexivity | apply (H "pH.d. thESIS"); reflexivity].
  - destruct (degree_type_normalisation
                null_reference ∅ {["b" := PStr "Rapport de Stage"]} ∅)
      as (_ & H & _); [reflexivity | apply H; reflexivity].
  - destruct (degree_type_normalisation
                null_reference ∅ {["b" := PStr "Doctorat"]} ∅)
      as (_ & _ & H & _);
      [reflexivity |
       apply (H "Doctorat"); [reflexivity | discriminate | reflexivity ..]].
  - destruct (degree_type_normalisation null_reference ∅ ∅ ∅)
      as (_ & _ & _ & H); [reflexivity | apply H; left; reflexivity].
Defined.

(** ** Institutions *)

(** C4. The institutions list of the object the 502 rule returns, from the
    names in sub-field c and the reference keys in sub-field z: when the two
    lists differ in length, one entry per name, each a dict holding the name
    and nothing else (no [record], no [curated_relation]); when they have the
    same length, one entry per pair, holding the name, the reference
    resolved from the key and the [curated_relation] flag. *)
Theorem institutions_zipped_only_on_equal_length :
  ∀ (get_record_ref : pyval → string → pyval) (self occ ti : record)
    (degree_type : pyval),
    Py.self_get self "thesis_info" (PDict ∅) = PDict ti →
    _get_degree_type (PDict occ) = Ok degree_type →
    let c_values := force_list (default PNone (occ !! "c")) in
    let z_values := force_list (default PNone (occ !! "z")) in
    ∃ self' t entries,
      thesis_info get_record_ref self (PDict occ) = Ok (self', PDict t)
      ∧ t !! "institutions" = Some (PList entries)
      ∧ (length c_values ≠ length z_values →
           entries = (λ c_value, PDict {["name" := c_value]}) <$> c_values)
      ∧ (length c_values = length z_values →
           entries =
             (λ cz, PDict (<["curated_relation" := PBool true]>
                           (<["name" := cz.1]>
                            (<["record" := get_record_ref cz.2 "institutions"]>
                             ∅))))
               <$> zip c_values z_values).
Proof.
  intros gr self occ ti dt Ht Hd c_values z_values.
  destruct (thesis_info_run gr _ _ _ _ Ht Hd) as (i & Hi & Hrun).
  rewrite Hrun. simpl. rewrite _get_institutions_dict in Hi. simpl in Hi.
  fold c_values z_values in Hi.
  destruct (Nat.eqb_spec (length c_values) (length z_values)) as [Heq | Hne];
    simpl in Hi; injection Hi as <-.
  - do 3 eexists. split; [reflexivity |].
    split; [apply lookup_insert_eq |].
    split; [intros Hne; contradiction | intros _; reflexivity].
  - do 3 eexists. split; [reflexivity |].
    split; [apply lookup_insert_eq |].
    split; [intros _; reflexivity | intros Heq; contradiction].
Qed.

Lemma institutions_zipped_only_on_equal_length_witness :
  (∃ self' t,
     thesis_info null_reference ∅
       (PDict (<["c" := PList [PStr "CERN"; PStr "DESY"]]>
               (<["z" := PStr "902725"]> ∅)))
     = Ok (self', PDict t)
     ∧ t !! "institutions" =
         Some (PList [PDict {["name" := PStr "CERN"]};
                      PDict {["name" := PStr "DESY"]}])).
Proof.
  destruct (institutions_zipped_only_on_equal_length
              null_reference ∅
              (<["c" := PList [PStr "CERN"; PStr "DESY"]]>
               (<["z" := PStr "902725"]> ∅)) ∅ PNone)
    as (self' & t & entries & Hrun & Hi & Hne & _);
    [reflexivity | reflexivity |].
  exists self', t. split; [exact Hrun |].
  rewrite Hi, Hne; [reflexivity | discriminate].
Defined.

(** ** Merging into the thesis information already there *)

(** C9. The 502 rule updates the [thesis_info] object already in the record:
    whenever it returns, the object returned agrees with the one that was in
    the record on every key other than [date], [degree_type] and
    [institutions]; a [defense_date] set before is still there with the same
    value.  The rule does return on every occurrence whose sub-field b is
    absent or a string. *)
Theorem thesis_info_merges :
  ∀ (get_record_ref : pyval → string → pyval) (self ti : record),
    self !! "thesis_info" = Some (PDict ti) →
    (∀ (value : pyval) (self' : record) (r : pyval),
       thesis_info get_record_ref self value = Ok (self', r) →
       ∃ t, r = PDict t
            ∧ (∀ k, k ∉ written_by_502 → t !! k = ti !! k)
            ∧ (∀ v, ti !! "defense_date" = Some v →
                    t !! "defense_date" = Some v))
    ∧ (∀ occ : record,
         (occ !! "b" = None ∨ ∃ s, occ !! "b" = Some (PStr s)) →
         ∃ self' r, thesis_info get_record_ref self (PDict occ) = Ok (self', r)).
Proof.
  intros gr self ti Hself.
  assert (Py.self_get self "thesis_info" (PDict ∅) = PDict ti) as Ht
    by (unfold Py.self_get; rewrite Hself; reflexivity).
  split.
  - intros value self' r Hrun.
    destruct (thesis_info_returns gr _ _ _ _ Hrun) as (occ & ti' & dt & -> & Ht' & Hd).
    rewrite Ht in Ht'. injection Ht' as <-.
    destruct (thesis_info_run gr _ _ _ _ Ht Hd) as (i & _ & Hrun').
    rewrite Hrun' in Hrun. simpl in Hrun. injection Hrun as _ <-.
    eexists. split; [reflexivity |].
    assert (∀ k, k ∉ written_by_502 →
              (<["institutions" := i]>
                 (<["degree_type" := dt]>
                    (<["date" := force_single_element (default PNone (occ !! "d"))]>
                       ti))) !! k = ti !! k) as Hframe.
    { intros k Hk. unfold written_by_502 in Hk.
      rewrite !lookup_insert_ne; [reflexivity | ..];
        intros <-; apply Hk; set_solver. }
    split; [exact Hframe |].
    intros v Hv. rewrite Hframe; [exact Hv |].
    unfold written_by_502. intros Hin.
    apply list_elem_of_In in Hin. simpl in Hin.
    destruct Hin as [H | [H | [H | []]]]; discriminate H.
  - intros occ Hb.
    assert (∃ dt, _get_degree_type (PDict occ) = Ok dt) as [dt Hd].
    { destruct Hb as [Hb | [s Hb]].
      - exists PNone. apply _get_degree_type_empty. left. exact Hb.
      - destruct (String.eqb_spec s "") as [-> | Hne].
        + exists PNone. apply _get_degree_type_empty. right. exact Hb.
        + eexists. apply (_get_degree_type_string _ _ Hb Hne). }
    destruct (thesis_info_run gr _ _ _ _ Ht Hd) as (i & _ & Hrun).
    rewrite Hrun. simpl. do 2 eexists. reflexivity.
Qed.

Lemma thesis_info_merges_witness :
  ∃ self' t,
    thesis_info null_reference
      {["thesis_info" := PDict {["defense_date" := PStr "1999-05"]}]}
      (PDict {["b" := PStr "PhD"]})
    = Ok (self', PDict t)
    ∧ t !! "defense_date" = Some (PStr "1999-05").
Proof.
  destruct (thesis_info_merges
              null_reference
              {["thesis_info" := PDict {["defense_date" := PStr "1999-05"]}]}
              {["defense_date" := PStr "1999-05"]}) as [Hframe Hret];
    [reflexivity |].
  destruct (Hret {["b" := PStr "PhD"]}) as (self' & r & Hrun);
    [right; exists "PhD"; reflexivity |].
  destruct (Hframe _ _ _ Hrun) as (t & -> & _ & Hdate).
  exists self', t. split; [exact Hrun | apply Hdate; reflexivity].
Defined.

(** ** License *)

(** A list is never equal to a string, so the condition of the
    comprehension holds for every element. *)
Lemma strip_open_access_keeps_all (license_value : list pyval) :
  strip_open_access license_value = license_value.
Proof.
  unfold strip_open_access. simpl.
  induction license_value as [| val rest IH]; [reflexivity |].
  rewrite filter_cons. simpl. rewrite IH. reflexivity.
Qed.

Lemma force_single_element_force_list (a : pyval) :
  force_single_element (PList (force_list a)) = force_single_element a.
Proof. reflexivity. Qed.

Lemma license_1_dict (occ : record) :
  license_1 (PDict occ) =
    Ok (PDict (<["license" := force_single_element (default PNone (occ !! "a"))]>
              (<["imposing" := default PNone (occ !! "b")]>
              (<["url" := default PNone (occ !! "u")]>
              (<["material" := default PNone (occ !! "3")]> ∅))))).
Proof.
  unfold license_1. simpl. rewrite strip_open_access_keeps_all.
  rewrite force_single_element_force_list. reflexivity.
Qed.

(** C10. The filter of the forward 540 rule removes nothing: for every
    occurrence the [license] attribute of the entry is sub-field a collapsed
    to a single element, and an occurrence whose sub-field a is exactly
    "Open Access" gives an entry whose [license] is "Open Access". *)
Theorem license_keeps_open_access :
  (∀ occ : record,
     ∃ entry,
       license (PDict occ) = Ok (PList [PDict entry])
       ∧ entry !! "license" =
           Some (force_single_element (default PNone (occ !! "a"))))
  ∧ license (PDict {["a" := PStr "Open Access"]}) =
      Ok (PList [PDict (<["license" := PStr "Open Access"]>
                        (<["imposing" := PNone]>
                         (<["url" := PNone]>
                          (<["material" := PNone]> ∅))))]).
Proof.
  split.
  - intros occ. unfold license, for_each_value. rewrite license_1_dict. simpl.
    eexists. split; [reflexivity | apply lookup_insert_eq].
  - unfold license, for_each_value. rewrite license_1_dict. reflexivity.
Qed.

(** ** Round trips *)

Lemma funding_round_trip_dict (raw : record) :
  round_trip funding_info funding_info2marc (PDict raw) =
    Ok (PList [PDict (funding_subfields raw)]).
Proof. reflexivity. Qed.

Lemma license_round_trip_dict (raw : record) :
  round_trip license license2marc (PDict raw) =
    Ok (PList [PDict (license_subfields raw)]).
Proof.
  unfold round_trip, license, for_each_value. rewrite license_1_dict.
  reflexivity.
Qed.

(** A present key reads as its value. *)
Lemma default_lookup_in_dom (raw : record) (k : string) :
  k ∈ dom raw → Some (default PNone (raw !! k)) = raw !! k.
Proof.
  intros Hk. apply elem_of_dom in Hk as [v Hv]. rewrite Hv. reflexivity.
Qed.

Lemma funding_subfields_exact (raw : record) :
  dom raw = {["a"; "c"; "f"]} → funding_subfields raw = raw.
Proof.
  intros Hdom. apply map_eq. intros k. unfold funding_subfields.
  destruct (decide (k ∈ dom raw)) as [Hin | Hout].
  - pose proof Hin as Hin'. rewrite Hdom in Hin'.
    rewrite <- (default_lookup_in_dom raw k Hin).
    apply elem_of_union in Hin' as [Hin' | Hf].
    + apply elem_of_union in Hin' as [Ha | Hc].
      * apply elem_of_singleton in Ha as ->. apply lookup_insert_eq.
      * apply elem_of_singleton in Hc as ->.
        rewrite lookup_insert_ne by discriminate. apply lookup_insert_eq.
    + apply elem_of_singleton in Hf as ->.
      rewrite !lookup_insert_ne by discriminate. apply lookup_insert_eq.
  - rewrite (proj1 (not_elem_of_dom raw k) Hout).
    rewrite Hdom in Hout.
    rewrite !lookup_insert_ne; [apply lookup_empty | ..];
      intros <-; apply Hout; set_solver.
Qed.

Lemma force_single_element_not_list (v : pyval) :
  is_list v = false → force_single_element v = v.
Proof. destruct v; (reflexivity || discriminate). Qed.

Lemma license_subfields_exact (raw : record) :
  dom raw = {["a"; "b"; "u"; "3"]} →
  is_list (default PNone (raw !! "a")) = false →
  license_subfields raw = raw.
Proof.
  intros Hdom Ha. apply map_eq. intros k. unfold license_subfields.
  rewrite (force_single_element_not_list _ Ha).
  destruct (decide (k ∈ dom raw)) as [Hin | Hout].
  - pose proof Hin as Hin'. rewrite Hdom in Hin'.
    rewrite <- (default_lookup_in_dom raw k Hin).
    repeat (apply elem_of_union in Hin' as [Hin' | Hin']);
      apply elem_of_singleton in Hin' as ->;
      rewrite ?lookup_insert_ne by discriminate; apply lookup_insert_eq.
  - rewrite (proj1 (not_elem_of_dom raw k) Hout).
    rewrite Hdom in Hout.
    rewrite !lookup_insert_ne; [apply lookup_empty | ..];
      intros <-; apply Hout; set_solver.
Qed.

(** C5, as the documentation states it, fails on a well-formed funding occurrence
    that has only sub-field a, and on a well-formed license occurrence whose
    sub-field a is repeated: the round trip gives an occurrence with the
    keys c and f holding [None] in the first case, and keeps only the first
    license in the second. *)
Lemma round_trip_not_identity :
  (well_formed_occurrence {["a" := PStr "CERN"]} = true
   ∧ round_trip funding_info funding_info2marc (PDict {["a" := PStr "CERN"]}) =
       Ok (PList [PDict (<["a" := PStr "CERN"]>
                         (<["c" := PNone]> (<["f" := PNone]> ∅)))])
   ∧ round_trip funding_info funding_info2marc (PDict {["a" := PStr "CERN"]}) ≠
       Ok (PList [PDict {["a" := PStr "CERN"]}]))
  ∧ (let raw : record :=
       <["a" := PList [PStr "CC-BY-4.0"; PStr "Open Access"]]>
         (<["b" := PStr "Elsevier"]>
            (<["u" := PStr "http://creativecommons.org/licenses/by/4.0/"]>
               (<["3" := PStr "Article"]> ∅))) in
     well_formed_occurrence raw = true
     ∧ round_trip license license2marc (PDict raw) =
         Ok (PList [PDict (<["a" := PStr "CC-BY-4.0"]> raw)])
     ∧ round_trip license license2marc (PDict raw) ≠ Ok (PList [PDict raw])).
Proof.
  split.
  - split; [vm_compute; reflexivity |]. split; [reflexivity |].
    rewrite funding_round_trip_dict. intros H.
    apply (f_equal (λ r, match r with
                         | Ok (PList [PDict m]) => m !! "c"
                         | _ => None
                         end)) in H.
    vm_compute in H. discriminate H.
  - intros raw.
    split; [vm_compute; reflexivity |]. split; [vm_compute; reflexivity |].
    rewrite license_round_trip_dict. intros H.
    apply (f_equal (λ r, match r with
                         | Ok (PList [PDict m]) => m !! "a"
                         | _ => None
                         end)) in H.
    vm_compute in H. discriminate H.
Qed.

(** C5, amended. For every single occurrence of 536 the backward rule
    applied to the result of the forward rule gives one occurrence holding
    exactly the sub-fields a, c and f, each with the value the raw occurrence
    has for it and [None] where it has none; the raw occurrence is reproduced
    exactly when it holds a, c and f and nothing else.  For every single
    occurrence of 540 likewise with the sub-fields a, b, u and 3, where a is
    collapsed to a single element; the raw occurrence is reproduced exactly
    when it holds a, b, u and 3 and nothing else and its a is not a list. *)
Theorem funding_and_license_round_trip :
  ∀ raw : record,
    round_trip funding_info funding_info2marc (PDict raw) =
      Ok (PList [PDict (funding_subfields raw)])
    ∧ (dom raw = {["a"; "c"; "f"]} →
       round_trip funding_info funding_info2marc (PDict raw) =
         Ok (PList [PDict raw]))
    ∧ round_trip license license2marc (PDict raw) =
        Ok (PList [PDict (license_subfields raw)])
    ∧ (dom raw = {["a"; "b"; "u"; "3"]} →
       is_list (default PNone (raw !! "a")) = false →
       round_trip license license2marc (PDict raw) = Ok (PList [PDict raw])).
Proof.
  intros raw. split; [| split; [| split]].
  - apply funding_round_trip_dict.
  - intros Hdom. rewrite funding_round_trip_dict.
    rewrite (funding_subfields_exact _ Hdom). reflexivity.
  - apply license_round_trip_dict.
  - intros Hdom Ha. rewrite license_round_trip_dict.
    rewrite (license_subfields_exact _ Hdom Ha). reflexivity.
Qed.

Lemma funding_and_license_round_trip_witness :
  round_trip funding_info funding_info2marc (PDict sample_funding) =
    Ok (PList [PDict sample_funding])
  ∧ round_trip license license2marc (PDict sample_license) =
      Ok (PList [PDict sample_license]).
Proof.
  split.
  - destruct (funding_and_license_round_trip sample_funding) as (_ & H & _).
    apply H. vm_compute. reflexivity.
  - destruct (funding_and_license_round_trip sample_license) as (_ & _ & _ & H).
    apply H; vm_compute; reflexivity.
Defined.

(** ** Copyright *)

Section CopyrightRoundTrip.

Variable maybe_int : pyval → pyval.

(** The forward 542 rule on an occurrence whose sub-field e is a
    non-empty string: sub-field 3 is not read. *)
Lemma copyright_1_prefers_e (raw : record) (e : string) :
  raw !! "e" = Some (PStr e) → e ≠ "" →
  copyright_1 maybe_int (PDict raw) =
    Ok (PDict (<["holder" := default PNone (raw !! "d")]>
              (<["material" := from_option PStr PNone (MATERIAL_MAP !! e)]>
              (<["statement" := default PNone (raw !! "f")]>
              (<["url" := default PNone (raw !! "u")]>
              (<["year" := maybe_int (default PNone (raw !! "g"))]> ∅)))))).
Proof.
  intros He Hne. unfold copyright_1. simpl. rewrite He. simpl.
  destruct (String.eqb_spec e ""); [contradiction | reflexivity].
Qed.

(** Every entry of [MATERIAL_MAP] is "publication", which [E_MAP] sends
    back to "Article". *)
Lemma material_there_and_back (e : string) :
  table_get E_MAP (from_option PStr PNone (MATERIAL_MAP !! e)) =
    Ok (if bool_decide (is_Some (MATERIAL_MAP !! e))
        then PStr "Article" else PNone).
Proof.
  destruct (MATERIAL_MAP !! e) as [m |] eqn:Hm; [| reflexivity].
  assert (m = "publication") as ->; [| reflexivity].
  unfold MATERIAL_MAP in Hm. simpl in Hm.
  apply lookup_insert_Some in Hm as [[_ Hm] | [_ Hm]]; [congruence |].
  apply lookup_insert_Some in Hm as [[_ Hm] | [_ Hm]]; [congruence |].
  rewrite lookup_empty in Hm. discriminate Hm.
Qed.

(** C6. A 542 occurrence holding both material sub-fields, e a non-empty
    string and 3 a string: the backward rule applied to the result of the
    forward rule gives one occurrence with the sub-fields d, e, f, g and u
    and no sub-field 3; its e is "Article" when the material table lists
    the raw e, [None] otherwise; and the same occurrence comes out when
    sub-field 3 is removed from the raw one. *)
Theorem copyright_round_trip_drops_fallback :
  ∀ (raw : record) (e m3 : string),
    raw !! "e" = Some (PStr e) → e ≠ "" →
    raw !! "3" = Some (PStr m3) →
    ∃ out : record,
      round_trip (copyright maybe_int) copyright2marc (PDict raw) =
        Ok (PList [PDict out])
      ∧ dom out = {["d"; "e"; "f"; "g"; "u"]}
      ∧ out !! "3" = None
      ∧ out !! "e" =
          Some (if bool_decide (is_Some (MATERIAL_MAP !! e))
                then PStr "Article" else PNone)
      ∧ round_trip (copyright maybe_int) copyright2marc
          (PDict (delete "3" raw)) = Ok (PList [PDict out]).
Proof.
  intros raw e m3 He Hne H3.
  assert (∀ r : record, r !! "e" = Some (PStr e) →
            round_trip (copyright maybe_int) copyright2marc (PDict r) =
              Ok (PList [PDict
                (<["d" := default PNone (r !! "d")]>
                (<["e" := if bool_decide (is_Some (MATERIAL_MAP !! e))
                          then PStr "Article" else PNone]>
                (<["f" := default PNone (r !! "f")]>
                (<["g" := maybe_int (default PNone (r !! "g"))]>
                (<["u" := default PNone (r !! "u")]> ∅)))))])) as Hrun.
  { intros r Hr. unfold round_trip, copyright, for_each_value.
    rewrite (copyright_1_prefers_e r e Hr Hne). simpl.
    unfold copyright2marc_1. simpl.
    rewrite !lookup_insert. simpl.
    rewrite material_there_and_back. reflexivity. }
  eexists. split; [apply (Hrun raw He) |].
  split; [rewrite !dom_insert_L, dom_empty_L; set_solver |].
  split; [rewrite !lookup_insert_ne by discriminate; apply lookup_empty |].
  split.
  - rewrite lookup_insert_ne by discriminate. apply lookup_insert_eq.
  - rewrite (Hrun (delete "3" raw))
      by (rewrite lookup_delete_ne by discriminate; exact He).
    rewrite !lookup_delete_ne by discriminate. reflexivity.
Qed.

End CopyrightRoundTrip.

Lemma copyright_round_trip_drops_fallback_witness :
  ∃ out : record,
    round_trip (copyright never_int) copyright2marc (PDict sample_copyright) =
      Ok (PList [PDict out])
    ∧ out !! "3" = None
    ∧ out !! "e" = Some (PStr "Article").
Proof.
  destruct (copyright_round_trip_drops_fallback
              never_int sample_copyright "Article" "Published thesis as a book")
    as (out & Hrun & _ & H3 & He & _);
    [reflexivity | discriminate | reflexivity |].
  exists out. split; [exact Hrun |]. split; [exact H3 |].
  rewrite He. reflexivity.
Defined.

(** ** Export flags *)

(** C7. The backward export rule gives at most one occurrence: "CDS" when
    the object has the key [CDS]; otherwise "HAL" when it has the key [HAL]
    holding a true value; otherwise "not HAL" when it has the key [HAL]
    holding a false value; and nothing when it has neither key.  An object
    with [CDS] and with [HAL] set to true therefore gives the single
    occurrence "CDS". *)
Theorem export_to_precedence :
  ∀ value : record,
    length (_export_to2marc value) ≤ 1
    ∧ (is_Some (value !! "CDS") →
       _export_to2marc value = [PDict {["c" := PStr "CDS"]}])
    ∧ (value !! "CDS" = None →
       ∀ hal, value !! "HAL" = Some hal →
         _export_to2marc value =
           [PDict {["c" := PStr (if Py.truthy hal then "HAL" else "not HAL")]}])
    ∧ (value !! "CDS" = None → value !! "HAL" = None →
       _export_to2marc value = []).
Proof.
  intros value. unfold _export_to2marc.
  split; [| split; [| split]].
  - case_bool_decide; [simpl; lia |].
    destruct (value !! "HAL") as [hal |]; [| simpl; lia].
    destruct (Py.truthy hal); simpl; lia.
  - intros Hcds. rewrite bool_decide_eq_true_2 by exact Hcds. reflexivity.
  - intros Hcds hal Hhal. rewrite Hcds, Hhal.
    rewrite bool_decide_eq_false_2 by (intros [? ?]; discriminate).
    destruct (Py.truthy hal); reflexivity.
  - intros Hcds Hhal. rewrite Hcds, Hhal.
    rewrite bool_decide_eq_false_2 by (intros [? ?]; discriminate).
    reflexivity.
Qed.

Lemma export_to_precedence_witness :
  _export_to2marc (<["CDS" := PBool true]> (<["HAL" := PBool true]> ∅)) =
    [PDict {["c" := PStr "CDS"]}].
Proof.
  destruct (export_to_precedence
              (<["CDS" := PBool true]> (<["HAL" := PBool true]> ∅)))
    as (_ & H & _).
  apply H. exists (PBool true). reflexivity.
Defined.

(** ** HAL notes *)

Lemma append_hal_notes (texts : list pyval) (old : list pyval) :
  for_each (λ notes _private_note,
              Py.append notes (note_entry (PStr "HAL") _private_note))
           (PList old) texts =
    Ok (PList (old ++ (note_entry (PStr "HAL") <$> texts))).
Proof.
  revert old. induction texts as [| text texts IH]; intros old; simpl.
  - rewrite app_nil_r. reflexivity.
  - rewrite IH, <- app_assoc. reflexivity.
Qed.

Lemma for_each_cons {A S : Type} (body : S → A → result S) s x xs :
  for_each body s (x :: xs) = body s x ≫= λ s', for_each body s' xs.
Proof. reflexivity. Qed.

Lemma bind_Ok {A B : Type} (a : A) (f : A → result B) : Ok a ≫= f = f a.
Proof. reflexivity. Qed.

Lemma _private_notes_hal_body_dict (occ : record) (old : list pyval) :
  _private_notes_hal_body (PList old) (PDict occ) =
    Ok (PList (old ++ hal_notes_of occ)).
Proof. unfold _private_notes_hal_body. simpl. apply append_hal_notes. Qed.

Lemma _private_notes_hal_loop (occs : list record) (old : list pyval) :
  for_each _private_notes_hal_body (PList old) (PDict <$> occs) =
    Ok (PList (old ++ concat (hal_notes_of <$> occs))).
Proof.
  revert old. induction occs as [| occ occs IH]; intros old.
  - simpl. rewrite app_nil_r. reflexivity.
  - rewrite !fmap_cons, for_each_cons, _private_notes_hal_body_dict, bind_Ok.
    rewrite IH. simpl. rewrite <- app_assoc. reflexivity.
Qed.

Lemma _private_notes2marc_body_dict (note : record) (r595 r595H : list pyval) :
  _private_notes2marc_body (PList r595, PList r595H) (PDict note) =
    if from_hal note
    then Ok (PList r595, PList (r595H ++ [to_595_H note]))
    else Ok (PList (r595 ++ [to_595 note]), PList r595H).
Proof.
  unfold _private_notes2marc_body, _is_from_hal. simpl. fold (from_hal note).
  destruct (from_hal note); reflexivity.
Qed.

Lemma _private_notes2marc_loop (notes : list record) (r595 r595H : list pyval) :
  for_each _private_notes2marc_body (PList r595, PList r595H) (PDict <$> notes) =
    Ok (PList (r595 ++ (to_595 <$> filter (λ n, from_hal n = false) notes)),
        PList (r595H ++ (to_595_H <$> filter (λ n, from_hal n = true) notes))).
Proof.
  revert r595 r595H.
  induction notes as [| note notes IH]; intros r595 r595H.
  - simpl. rewrite !app_nil_r. reflexivity.
  - rewrite fmap_cons, for_each_cons, _private_notes2marc_body_dict.
    rewrite !filter_cons.
    destruct (from_hal note) eqn:Hhal; rewrite bind_Ok, IH.
    + rewrite decide_False by discriminate.
      rewrite decide_True by reflexivity.
      rewrite fmap_cons, <- app_assoc. reflexivity.
    + rewrite decide_True by reflexivity.
      rewrite decide_False by discriminate.
      rewrite fmap_cons, <- app_assoc. reflexivity.
Qed.

Lemma hal_notes_from_hal (occ : record) :
  Forall (λ note, ∃ d : record,
            note = PDict d ∧ d !! "source" = Some (PStr "HAL"))
         (hal_notes_of occ).
Proof.
  unfold hal_notes_of. apply Forall_fmap, Forall_true. intros text.
  eexists. split; [reflexivity | apply lookup_insert_eq].
Qed.

(** C8. Forward, the 595.H rule returns the notes that were in the record
    followed by one entry per text of each occurrence, and every entry it
    adds has source "HAL", whatever the occurrence holds in sub-field 9.
    Backward, the notes rule appends to 595 one occurrence per note whose
    source is not "HAL" and to 595_H one occurrence per note whose source is
    "HAL", so a note from HAL never goes to 595 and any other note never
    goes to 595_H. *)
Theorem hal_notes_attribution_and_routing :
  (∀ (self : record) (value : pyval) (occs : list record) (old : list pyval),
     Py.self_get self "_private_notes" (PList []) = PList old →
     force_list value = PDict <$> occs →
     ∃ self' new,
       _private_notes_hal self value = Ok (self', PList (old ++ new))
       ∧ new = concat (hal_notes_of <$> occs)
       ∧ Forall (λ note, ∃ d : record,
                   note = PDict d ∧ d !! "source" = Some (PStr "HAL")) new)
  ∧ (∀ (self : record) (value : pyval) (notes : list record)
       (old_595 old_595_H : list pyval),
       Py.self_get self "595" (PList []) = PList old_595 →
       Py.self_get self "595_H" (PList []) = PList old_595_H →
       force_list value = PDict <$> notes →
       ∃ self',
         _private_notes2marc self value =
           Ok (self',
               PList (old_595
                      ++ (to_595 <$> filter (λ n, from_hal n = false) notes)))
         ∧ self' !! "595_H" =
             Some (PList (old_595_H
                          ++ (to_595_H
                                <$> filter (λ n, from_hal n = true) notes)))).
Proof.
  split.
  - intros self value occs old Hold Hocc.
    unfold _private_notes_hal. rewrite Hold, Hocc.
    rewrite _private_notes_hal_loop. simpl.
    do 2 eexists. split; [reflexivity |]. split; [reflexivity |].
    apply Forall_concat, Forall_fmap, Forall_true. intros occ.
    apply hal_notes_from_hal.
  - intros self value notes old_595 old_595_H H595 H595H Hnotes.
    unfold _private_notes2marc. rewrite H595, H595H, Hnotes.
    rewrite _private_notes2marc_loop. simpl.
    eexists. split; [reflexivity | apply lookup_insert_eq].
Qed.

Lemma hal_notes_attribution_and_routing_witness :
  (∃ self',
     _private_notes_hal ∅ (PDict sample_hal_occurrence) =
       Ok (self', PList [note_entry (PStr "HAL") (PStr "Deposited from HAL")]))
  ∧ (∃ self',
       _private_notes2marc ∅
         (PList [note_entry (PStr "HAL") (PStr "Deposited from HAL");
                 note_entry (PStr "SPIRES") (PStr "Update")]) =
         Ok (self', PList [PDict (<["9" := PStr "SPIRES"]>
                                  (<["a" := PStr "Update"]> ∅))])
       ∧ self' !! "595_H" =
           Some (PList [PDict {["a" := PStr "Deposited from HAL"]}])).
Proof.
  split.
  - destruct hal_notes_attribution_and_routing as [Hfwd _].
    destruct (Hfwd ∅ (PDict sample_hal_occurrence) [sample_hal_occurrence] [])
      as (self' & new & Hrun & -> & _); [reflexivity | reflexivity |].
    exists self'. exact Hrun.
  - destruct hal_notes_attribution_and_routing as [_ Hbwd].
    destruct (Hbwd ∅
                (PList [note_entry (PStr "HAL") (PStr "Deposited from HAL");
                        note_entry (PStr "SPIRES") (PStr "Update")])
                [ <["source" := PStr "HAL"]>
                    (<["value" := PStr "Deposited from HAL"]> ∅);
                  <["source" := PStr "SPIRES"]>
                    (<["value" := PStr "Update"]> ∅) ]
                [] [])
      as (self' & Hrun & HH); [reflexivity | reflexivity | reflexivity |].
    exists self'. split; [exact Hrun | exact HH].
Defined.

(** * Further properties *)

(** ** What the defense-date pattern captures *)

(** X1. On a text in ASCII the pattern and the documented form
    "Presented on YYYY[-MM[-DD]]" agree.  The pattern captures a date
    exactly when the text is the words "presented on " in any letter case,
    then that date, then a free tail, the date being a year of four decimal
    digits with, possibly, a dash and two digits for the month and a dash
    and two digits for the day, and no longer date of that form following
    the words; the pattern fails exactly when the text has no such form;
    a captured date is 4, 7 or 10 characters long. *)
Theorem defense_date_capture :
  ∀ text : string,
    Text.is_ascii text = true →
    (∀ date : string,
       Regex.defense_date text = Some date ↔ captured_date text date)
    ∧ (Regex.defense_date text = None ↔ no_presented_on_date text)
    ∧ (∀ date : string,
         Regex.defense_date text = Some date →
         String.length date = 4 ∨ String.length date = 7
         ∨ String.length date = 10).
Proof.
  intros text _. split; [| split].
  - intros date. apply defense_date_captured.
  - apply defense_date_none.
  - intros date H. apply defense_date_presented in H.
    destruct H as (p & tail & _ & _ & Hd).
    apply date_expression_length, Hd.
Qed.

Lemma defense_date_capture_witness :
  captured_date "PRESENTED ON 2001-02-03 in Geneva" "2001-02-03"
  ∧ no_presented_on_date "Presented on abcd-ef"
  ∧ ¬ captured_date "Presented on 1999-05-1 (Orsay)" "1999".
Proof.
  split; [| split].
  - destruct (defense_date_capture "PRESENTED ON 2001-02-03 in Geneva")
      as (H & _ & _); [reflexivity |].
    apply H. reflexivity.
  - destruct (defense_date_capture "Presented on abcd-ef") as (_ & H & _);
      [reflexivity |].
    apply H. reflexivity.
  - destruct (defense_date_capture "Presented on 1999-05-1 (Orsay)")
      as (H & _ & _); [reflexivity |].
    intros Hc. apply H in Hc. discriminate Hc.
Defined.


Lemma defense_date_reread (text d : string) :
  Regex.defense_date text = Some d →
  Regex.defense_date ("Presented on " +:+ d) = Some d.
Proof.
  intros H.
  destruct (defense_date_Some _ _ H) as (rest & year & rest' & _ & Hd & ->).
  unfold Regex.defense_date.
  rewrite (literal_ignorecase_append "Presented on " "Presented on " _ eq_refl).
  unfold mbind, option_bind.
  rewrite (digits_append _ _ _ _ (Regex.dash_blocks 2 rest') Hd).
  rewrite dash_blocks_idempotent. reflexivity.
Qed.

(** X2. A date captured by the pattern is captured again, whole, from the
    text "Presented on " followed by that date. *)
Theorem defense_date_presented_on :
  ∀ text d : string,
    Regex.defense_date text = Some d →
    Regex.defense_date ("Presented on " +:+ d) = Some d.
Proof. intros text d H. exact (defense_date_reread text d H). Qed.

Lemma defense_date_presented_on_witness :
  Regex.defense_date ("Presented on " +:+ "1999-05") = Some "1999-05".
Proof.
  apply (defense_date_presented_on "presented on 1999-05-1 (Orsay)" "1999-05").
  reflexivity.
Defined.

(** ** The backward rule for 502 *)

Lemma bind_Returns {A B : Type} (a : A) (f : A → outcome B) :
  Returns a ≫= f = f a.
Proof. reflexivity. Qed.

Section ThesisInfo2marcRun.

Variable py_str : pyval → string.

(** The rule on a dict whose degree type and institution names are read
    without raising: 500 gets the occurrences it had, followed by the
    defense-date note when there is a date. *)
Lemma thesis_info2marc_run (self v : record) (old : list pyval) (b : pyval)
    (names : list pyval) :
  Py.self_get self "500" (PList []) = PList old →
  _get_b_value (PDict v) = Ok b →
  comprehension_k (λ el, getitem el "name")
    (force_list (default PNone (v !! "institutions"))) = Returns names →
  thesis_info2marc py_str self (PDict v) =
    let defense_date := default PNone (v !! "defense_date") in
    Returns
      (<["500" := PList (old ++ if Py.truthy defense_date
                                then [PDict {["a" := PStr (presented_on py_str
                                                             defense_date)]}]
                                else [])]> self,
       PDict (<["b" := b]> (<["c" := PList names]>
                (<["d" := default PNone (v !! "date")]> ∅)))).
Proof.
  intros H500 Hb Hnames. unfold thesis_info2marc. rewrite H500, Hb.
  simpl. destruct (Py.truthy (default PNone (v !! "defense_date"))); simpl.
  - rewrite Hnames. reflexivity.
  - rewrite Hnames, app_nil_r. reflexivity.
Qed.

End ThesisInfo2marcRun.



(** ** Degree categories, there and back *)

(** The categories the forward table gives. *)
Lemma degree_categories (u cat : string) :
  DEGREE_TYPES_MAP !! u = Some cat →
  cat ∈ ["other"; "diploma"; "bachelor"; "laurea"; "master"; "phd";
         "habilitation"].
Proof.
  unfold DEGREE_TYPES_MAP. simpl. intros H.
  repeat (apply lookup_insert_Some in H as [[_ <-] | [_ H]]; [set_solver |]).
  rewrite lookup_empty in H. discriminate H.
Qed.

(** X4. The category the forward 502 rule gives for a non-empty degree
    string is sent by the backward table to a degree string which the
    forward rule maps to that same category. *)
Theorem degree_category_round_trip :
  ∀ (occ : record) (s : string),
    occ !! "b" = Some (PStr s) → s ≠ "" →
    ∃ cat b' : string,
      _get_degree_type (PDict occ) = Ok (PStr cat)
      ∧ _get_b_value (PDict {["degree_type" := PStr cat]}) = Ok (PStr b')
      ∧ _get_degree_type (PDict {["b" := PStr b']}) = Ok (PStr cat).
Proof.
  intros occ s Hb Hne. rewrite (_get_degree_type_string _ _ Hb Hne).
  assert (default "other" (DEGREE_TYPES_MAP !! Text.upper s)
            ∈ ["other"; "diploma"; "bachelor"; "laurea"; "master"; "phd";
               "habilitation"]) as Hcat.
  { destruct (DEGREE_TYPES_MAP !! Text.upper s) as [cat |] eqn:Hm.
    - apply (degree_categories _ _ Hm).
    - simpl. set_solver. }
  revert Hcat. generalize (default "other" (DEGREE_TYPES_MAP !! Text.upper s)).
  intros cat Hcat.
  repeat (apply elem_of_cons in Hcat as [-> | Hcat];
          [do 2 eexists; split; [reflexivity |];
           split; vm_compute; reflexivity |]).
  apply elem_of_nil in Hcat. contradiction.
Qed.

Lemma degree_category_round_trip_witness :
  ∃ cat b' : string,
    _get_degree_type (PDict {["b" := PStr "Ph.D. Thesis"]}) = Ok (PStr cat)
    ∧ _get_b_value (PDict {["degree_type" := PStr cat]}) = Ok (PStr b')
    ∧ _get_degree_type (PDict {["b" := PStr b']}) = Ok (PStr cat).
Proof.
  apply (degree_category_round_trip {["b" := PStr "Ph.D. Thesis"]}
           "Ph.D. Thesis"); [reflexivity | discriminate].
Defined.

(** ** Institutions, there and back *)

Lemma names_of_name_only (c_values : list pyval) :
  comprehension_k (λ el, getitem el "name") (name_only <$> c_values) =
    Returns c_values.
Proof.
  induction c_values as [| c cs IH]; [reflexivity |].
  rewrite fmap_cons. simpl. rewrite lookup_insert_eq.
  simpl in IH. rewrite IH. reflexivity.
Qed.

Lemma names_of_with_record (get_record_ref : pyval → string → pyval)
    (pairs : list (pyval * pyval)) :
  comprehension_k (λ el, getitem el "name")
    (with_record get_record_ref <$> pairs) = Returns (pairs.*1).
Proof.
  induction pairs as [| [c z] pairs IH]; [reflexivity |].
  rewrite !fmap_cons. simpl.
  rewrite lookup_insert_ne by discriminate. rewrite lookup_insert_eq.
  simpl in IH. rewrite IH. reflexivity.
Qed.

(** The degree type the forward rule computes is a string or [None]. *)
Lemma _get_degree_type_shape (occ : record) (dt : pyval) :
  _get_degree_type (PDict occ) = Ok dt → dt = PNone ∨ ∃ s, dt = PStr s.
Proof.
  unfold _get_degree_type. simpl.
  destruct (Py.truthy (force_single_element (default (PStr "") (occ !! "b")))).
  - destruct (force_single_element (default (PStr "") (occ !! "b")));
      simpl; intros H; try discriminate H.
    injection H as <-. right. eauto.
  - intros H. injection H as <-. left. reflexivity.
Qed.

(** The backward table is read without raising for such a degree type. *)
Lemma _get_b_value_of_shape (t : record) (dt : pyval) :
  t !! "degree_type" = Some dt →
  dt = PNone ∨ (∃ s, dt = PStr s) →
  ∃ b, _get_b_value (PDict t) = Ok b.
Proof.
  intros Ht Hdt. unfold _get_b_value. simpl. rewrite Ht. simpl.
  destruct Hdt as [-> | [s ->]]; simpl.
  - eexists. reflexivity.
  - destruct (negb _); eexists; reflexivity.
Qed.

(** X5. The names of the institutions survive the way there and back,
    whether or not they were paired with reference keys: the backward 502
    rule, given what the forward 502 rule returns, gives the sub-fields b, c
    and d only, with c the list of the values of the raw sub-field c and d
    the raw date; the reference keys of sub-field z do not come back. *)
Theorem institution_names_round_trip :
  ∀ (get_record_ref : pyval → string → pyval) (py_str : pyval → string)
    (self occ ti rec : record) (degree_type : pyval) (old : list pyval),
    Py.self_get self "thesis_info" (PDict ∅) = PDict ti →
    _get_degree_type (PDict occ) = Ok degree_type →
    Py.self_get rec "500" (PList []) = PList old →
    ∃ (self' t rec' r : record),
      thesis_info get_record_ref self (PDict occ) = Ok (self', PDict t)
      ∧ thesis_info2marc py_str rec (PDict t) = Returns (rec', PDict r)
      ∧ dom r = {["b"; "c"; "d"]}
      ∧ r !! "c" = Some (PList (force_list (default PNone (occ !! "c"))))
      ∧ r !! "d" = Some (force_single_element (default PNone (occ !! "d"))).
Proof.
  intros gr py_str self occ ti rec dt old Ht Hd H500.
  destruct (thesis_info_run gr _ _ _ _ Ht Hd) as (i & Hi & Hrun).
  rewrite Hrun. cbv zeta.
  set (t := <["institutions" := i]>
              (<["degree_type" := dt]>
                 (<["date" := force_single_element (default PNone (occ !! "d"))]>
                    ti))).
  assert (t !! "degree_type" = Some dt) as Htd.
  { unfold t. rewrite lookup_insert_ne by discriminate. apply lookup_insert_eq. }
  destruct (_get_b_value_of_shape t dt Htd (_get_degree_type_shape _ _ Hd))
    as [b Hb].
  assert (comprehension_k (λ el, getitem el "name")
            (force_list (default PNone (t !! "institutions"))) =
          Returns (force_list (default PNone (occ !! "c")))) as Hnames.
  { unfold t. rewrite lookup_insert_eq. simpl.
    rewrite _get_institutions_dict in Hi. cbv zeta in Hi.
    destruct (Nat.eqb_spec
                (length (force_list (default PNone (occ !! "c"))))
                (length (force_list (default PNone (occ !! "z")))))
      as [Heq | Hne]; simpl in Hi; injection Hi as <-; simpl.
    - rewrite names_of_with_record, fst_zip by lia. reflexivity.
    - apply names_of_name_only. }
  eexists _, t, _, _. split; [reflexivity |].
  rewrite (thesis_info2marc_run py_str _ _ _ _ _ H500 Hb Hnames). cbv zeta.
  split; [reflexivity |].
  split; [rewrite !dom_insert_L, dom_empty_L; set_solver |].
  split.
  - rewrite lookup_insert_ne by discriminate. apply lookup_insert_eq.
  - rewrite !lookup_insert_ne by discriminate. rewrite lookup_insert_eq.
    unfold t. rewrite !lookup_insert_ne by discriminate.
    rewrite lookup_insert_eq. reflexivity.
Qed.

Lemma institution_names_round_trip_witness :
  ∃ (self' t rec' r : record),
    thesis_info null_reference ∅
      (PDict (<["c" := PList [PStr "CERN"; PStr "DESY"]]>
              (<["z" := PStr "902725"]> ∅))) = Ok (self', PDict t)
    ∧ thesis_info2marc (λ _, "") ∅ (PDict t) = Returns (rec', PDict r)
    ∧ r !! "c" = Some (PList [PStr "CERN"; PStr "DESY"]).
Proof.
  destruct (institution_names_round_trip
              null_reference (λ _, "") ∅
              (<["c" := PList [PStr "CERN"; PStr "DESY"]]>
               (<["z" := PStr "902725"]> ∅)) ∅ ∅ PNone [])
    as (self' & t & rec' & r & Hfwd & Hbwd & _ & Hc & _);
    [reflexivity | reflexivity | reflexivity |].
  exists self', t, rec', r. split; [exact Hfwd |]. split; [exact Hbwd |].
  exact Hc.
Defined.

(** An institution without a name stops the comprehension with [KeyError]. *)
Lemma names_of_missing_name (els : list record) :
  Exists (λ el : record, el !! "name" = None) els →
  comprehension_k (λ el, getitem el "name") (PDict <$> els) = Fails KeyError.
Proof.
  induction 1 as [el els Hel | el els _ IH]; rewrite fmap_cons; simpl.
  - rewrite Hel. reflexivity.
  - destruct (el !! "name"); [| reflexivity]. simpl.
    simpl in IH. rewrite IH. reflexivity.
Qed.

(** X6. The backward 502 rule raises [KeyError] when one of the
    institutions it is given is a dict without the key [name]. *)
Theorem thesis_info2marc_missing_name :
  ∀ (py_str : pyval → string) (self v : record) (old : list pyval)
    (b : pyval) (els : list record),
    Py.self_get self "500" (PList []) = PList old →
    _get_b_value (PDict v) = Ok b →
    v !! "institutions" = Some (PList (PDict <$> els)) →
    Exists (λ el : record, el !! "name" = None) els →
    thesis_info2marc py_str self (PDict v) = Fails KeyError.
Proof.
  intros py_str self v old b els H500 Hb Hi Hex.
  unfold thesis_info2marc. rewrite H500, Hb. simpl. rewrite Hi. simpl.
  pose proof (names_of_missing_name els Hex) as Hk. simpl in Hk.
  destruct (Py.truthy (default PNone (v !! "defense_date")));
    simpl; rewrite Hk; reflexivity.
Qed.

Lemma thesis_info2marc_missing_name_witness :
  thesis_info2marc (λ _, "") ∅
    (PDict {["institutions" :=
               PList [PDict {["name" := PStr "CERN"]};
                      PDict {["record" := PNone]}]]}) = Fails KeyError.
Proof.
  apply (thesis_info2marc_missing_name
           (λ _, "") ∅ _ [] PNone
           [ {["name" := PStr "CERN"]}; {["record" := PNone]} ]);
    [reflexivity | reflexivity | reflexivity |].
  apply Exists_cons_tl, Exists_cons_hd. reflexivity.
Defined.

(** ** Rules applied to each value *)

Lemma comprehension_dicts {B : Type} (f : pyval → result B) (g : record → B)
    (occs : list record) :
  (∀ occ, f (PDict occ) = Ok (g occ)) →
  comprehension f (PDict <$> occs) = Ok (g <$> occs).
Proof.
  intros Hf. induction occs as [| occ occs IH]; [reflexivity |].
  rewrite !fmap_cons. simpl. rewrite Hf. simpl.
  simpl in IH. rewrite IH. reflexivity.
Qed.

(** ** Abstracts *)

Lemma abstracts_1_dict (occ : record) :
  abstracts_1 (PDict occ) =
    Ok (note_entry (collapsed_9 occ) <$> abstract_texts occ).
Proof.
  unfold abstracts_1, abstract_texts, collapsed_9. simpl.
  rewrite fmap_app. reflexivity.
Qed.

(** X7. The forward 520 rule on a sequence of occurrences returns, in
    order, one group of entries per occurrence: one entry per text of the
    occurrence, the values of sub-field a before those of sub-field h, each
    with the source of that occurrence. *)
Theorem abstracts_source_per_occurrence :
  ∀ occs : list record,
    ∃ groups : list (list pyval),
      abstracts (PList (PDict <$> occs)) = Ok (PList (concat groups))
      ∧ Forall2 (λ occ group,
                   Forall2 (λ text entry,
                              entry = PDict (<["source" := collapsed_9 occ]>
                                             (<["value" := text]> ∅)))
                           (abstract_texts occ) group)
                occs groups.
Proof.
  intros occs.
  exists ((λ occ, note_entry (collapsed_9 occ) <$> abstract_texts occ) <$> occs).
  split.
  - unfold abstracts, flatten_for_each_value.
    rewrite (comprehension_dicts abstracts_1 _ occs abstracts_1_dict).
    reflexivity.
  - apply Forall2_fmap_r, Forall_Forall2_diag, Forall_true. intros occ.
    apply Forall2_fmap_r, Forall_Forall2_diag, Forall_true. intros text.
    reflexivity.
Qed.

Lemma abstract2marc_1_entry (source text : pyval) :
  abstract2marc_1 (note_entry source text) =
    Ok (PDict (<["9" := source]> (<[abstract_code source := text]> ∅))).
Proof.
  unfold abstract2marc_1, note_entry, abstract_code. simpl.
  rewrite !lookup_insert. simpl.
  destruct (Py.eq_str source "HEPDATA"); reflexivity.
Qed.

Lemma abstract2marc_entries (source : pyval) (texts : list pyval) :
  comprehension abstract2marc_1 (note_entry source <$> texts) =
    Ok ((λ text, PDict (<["9" := source]>
                        (<[abstract_code source := text]> ∅))) <$> texts).
Proof.
  induction texts as [| text texts IH]; [reflexivity |].
  rewrite !fmap_cons.
  change (comprehension ?f (?x :: ?xs))
    with (y ← f x; ys ← comprehension f xs; Ok (y :: ys)).
  rewrite abstract2marc_1_entry, IH. reflexivity.
Qed.

(** X8. The backward 520 rule applied to what the forward rule returns for
    one occurrence gives one occurrence per text, in order, each with
    sub-field 9 holding the source; the text is in sub-field h when the
    source is "HEPDATA" and in sub-field a otherwise, whichever of the two
    sub-fields it was read from. *)
Theorem abstracts_round_trip :
  ∀ occ : record,
    ∃ outs : list pyval,
      round_trip abstracts abstract2marc (PDict occ) = Ok (PList outs)
      ∧ Forall2 (λ text out,
                   out = PDict (<["9" := collapsed_9 occ]>
                                (<[abstract_code (collapsed_9 occ) := text]> ∅)))
                (abstract_texts occ) outs.
Proof.
  intros occ. eexists. split.
  - unfold round_trip, abstracts, flatten_for_each_value.
    rewrite abstracts_1_dict. simpl. rewrite app_nil_r.
    unfold abstract2marc, for_each_value.
    rewrite abstract2marc_entries. reflexivity.
  - apply Forall2_fmap_r, Forall_Forall2_diag, Forall_true. intros text.
    reflexivity.
Qed.

(** ** DESY bookkeeping *)

Lemma desy_round_trip_dict (raw : record) :
  round_trip _desy_bookkeeping _desy_bookkeeping2marc (PDict raw) =
    Ok (PList [PDict (desy_subfields raw)]).
Proof. reflexivity. Qed.

(** X9. The backward 595.D rule applied to what the forward rule returns
    for one occurrence gives one occurrence with the sub-fields a, d and s,
    a collapsed to a single element and [None] for a sub-field the raw
    occurrence lacks; the raw occurrence comes back unchanged when it holds
    a, d and s and nothing else and its a is not a list. *)
Theorem desy_bookkeeping_round_trip :
  ∀ raw : record,
    round_trip _desy_bookkeeping _desy_bookkeeping2marc (PDict raw) =
      Ok (PList [PDict (desy_subfields raw)])
    ∧ (dom raw = {["a"; "d"; "s"]} →
       is_list (default PNone (raw !! "a")) = false →
       round_trip _desy_bookkeeping _desy_bookkeeping2marc (PDict raw) =
         Ok (PList [PDict raw])).
Proof.
  intros raw. split; [apply desy_round_trip_dict |].
  intros Hdom Ha. rewrite desy_round_trip_dict.
  assert (desy_subfields raw = raw) as ->; [| reflexivity].
  apply map_eq. intros k. unfold desy_subfields.
  rewrite (force_single_element_not_list _ Ha).
  destruct (decide (k ∈ dom raw)) as [Hin | Hout].
  - pose proof Hin as Hin'. rewrite Hdom in Hin'.
    rewrite <- (default_lookup_in_dom raw k Hin).
    repeat (apply elem_of_union in Hin' as [Hin' | Hin']);
      apply elem_of_singleton in Hin' as ->;
      rewrite ?lookup_insert_ne by discriminate; apply lookup_insert_eq.
  - rewrite (proj1 (not_elem_of_dom raw k) Hout).
    rewrite Hdom in Hout.
    rewrite !lookup_insert_ne; [apply lookup_empty | ..];
      intros <-; apply Hout; set_solver.
Qed.

Lemma desy_bookkeeping_round_trip_witness :
  round_trip _desy_bookkeeping _desy_bookkeeping2marc
    (PDict (<["a" := PStr "FS"]> (<["d" := PStr "2017-02"]>
              (<["s" := PStr "final"]> ∅)))) =
    Ok (PList [PDict (<["a" := PStr "FS"]> (<["d" := PStr "2017-02"]>
                        (<["s" := PStr "final"]> ∅)))]).
Proof.
  destruct (desy_bookkeeping_round_trip
              (<["a" := PStr "FS"]> (<["d" := PStr "2017-02"]>
                 (<["s" := PStr "final"]> ∅)))) as [_ H].
  apply H; vm_compute; reflexivity.
Defined.

(** ** A sequence of occurrences *)

(** A rule that raises [AttributeError] on anything but a dict makes the
    whole comprehension raise it as soon as one value is not a dict. *)
Lemma comprehension_not_a_dict {B : Type} (f : pyval → result B)
    (vs : list pyval) :
  (∀ v, not_a_dict v → f v = Raise AttributeError) →
  (∀ occ, ∃ y, f (PDict occ) = Ok y) →
  Exists not_a_dict vs →
  comprehension f vs = Raise AttributeError.
Proof.
  intros Hbad Hgood. induction 1 as [v vs Hv | v vs _ IH]; simpl.
  - rewrite (Hbad v Hv). reflexivity.
  - destruct v as [| | | | | occ];
      try (rewrite Hbad; [reflexivity | intros d; discriminate]).
    destruct (Hgood occ) as [y ->]. simpl. rewrite IH. reflexivity.
Qed.

Lemma funding_info_1_not_a_dict (v : pyval) :
  not_a_dict v → funding_info_1 v = Raise AttributeError.
Proof.
  intros Hv. destruct v as [| | | | | occ]; try reflexivity.
  contradiction (Hv occ). reflexivity.
Qed.

(** X10. On a sequence of 536 occurrences the way there and back works
    occurrence by occurrence, keeping their number and order; and the
    forward rule raises [AttributeError], returning nothing at all, as soon
    as one value of the sequence is not a dict. *)
Theorem funding_info_on_sequence :
  (∀ occs : list record,
     round_trip funding_info funding_info2marc (PList (PDict <$> occs)) =
       Ok (PList ((λ occ, PDict (funding_subfields occ)) <$> occs)))
  ∧ (∀ vs : list pyval,
       Exists not_a_dict vs →
       funding_info (PList vs) = Raise AttributeError).
Proof.
  split.
  - intros occs. unfold round_trip, funding_info, for_each_value.
    rewrite (comprehension_dicts funding_info_1
               (λ occ, PDict (<["agency" := default PNone (occ !! "a")]>
                              (<["grant_number" := default PNone (occ !! "c")]>
                               (<["project_number" :=
                                    default PNone (occ !! "f")]> ∅))))
               occs) by (intros occ; reflexivity).
    simpl. unfold funding_info2marc, for_each_value.
    induction occs as [| occ occs IH]; [reflexivity |].
    rewrite !fmap_cons.
    change (comprehension ?f (?x :: ?xs))
      with (y ← f x; ys ← comprehension f xs; Ok (y :: ys)).
    destruct (comprehension funding_info2marc_1 _) as [outs | e];
      [| discriminate IH].
    simpl in IH. injection IH as ->. reflexivity.
  - intros vs Hvs. unfold funding_info, for_each_value.
    rewrite (comprehension_not_a_dict funding_info_1 vs
               funding_info_1_not_a_dict); [reflexivity | | exact Hvs].
    intros occ. eexists. reflexivity.
Qed.

Lemma funding_info_on_sequence_witness :
  funding_info (PList [PDict {["a" := PStr "CERN"]}; PStr "CERN"]) =
    Raise AttributeError.
Proof.
  destruct funding_info_on_sequence as [_ H]. apply H.
  apply Exists_cons_tl, Exists_cons_hd. intros d. discriminate.
Defined.

(** ** The general 595 rule *)

Lemma classified_as_dict (m : string) (occ : record) :
  c_is_text occ = true →
  classified_as m (PDict occ) = Ok (String.eqb (marker occ) m).
Proof.
  unfold classified_as, c_is_text, marker. simpl.
  destruct (occ !! "c") as [[] |]; simpl; intros H;
    (discriminate H || reflexivity).
Qed.

Lemma export_flag_dict (eo occ : record) :
  c_is_text occ = true →
  export_flag (PDict eo) (PDict occ) = Ok (PDict (flag_step eo occ)).
Proof.
  intros Hc. unfold export_flag, flag_step.
  rewrite !(classified_as_dict _ _ Hc). simpl.
  destruct (String.eqb (marker occ) "CDS"); [reflexivity |].
  destruct (String.eqb (marker occ) "HAL"); [reflexivity |].
  destruct (String.eqb (marker occ) "NOT HAL"); reflexivity.
Qed.

Lemma append_private_notes (source : pyval) (texts old : list pyval) :
  for_each (λ notes _private_note,
              Py.append notes (note_entry source _private_note))
           (PList old) texts =
    Ok (PList (old ++ (note_entry source <$> texts))).
Proof.
  revert old. induction texts as [| text texts IH]; intros old; simpl.
  - rewrite app_nil_r. reflexivity.
  - rewrite IH, <- app_assoc. reflexivity.
Qed.

Lemma _private_notes_body_dict (eo occ : record) (old : list pyval) :
  c_is_text occ = true →
  _private_notes_body (PDict eo, PList old) (PDict occ) =
    Ok (PDict (flag_step eo occ), PList (old ++ private_notes_of occ)).
Proof.
  intros Hc. unfold _private_notes_body.
  rewrite (export_flag_dict _ _ Hc). simpl.
  rewrite append_private_notes. reflexivity.
Qed.

Lemma _private_notes_loop (occs : list record) (eo : record)
    (old : list pyval) :
  Forall (λ occ, c_is_text occ = true) occs →
  for_each _private_notes_body (PDict eo, PList old) (PDict <$> occs) =
    Ok (PDict (foldl flag_step eo occs),
        PList (old ++ concat (private_notes_of <$> occs))).
Proof.
  intros Hc. revert eo old.
  induction Hc as [| occ occs Hocc _ IH]; intros eo old.
  - simpl. rewrite app_nil_r. reflexivity.
  - rewrite !fmap_cons, for_each_cons, (_private_notes_body_dict _ _ _ Hocc).
    rewrite bind_Ok, IH. simpl. rewrite <- app_assoc. reflexivity.
Qed.

(** The rule on a sequence of occurrences whose classification is read
    without raising. *)
Lemma _private_notes_run (self eo : record) (occs : list record)
    (old : list pyval) :
  Py.self_get self "_private_notes" (PList []) = PList old →
  Py.self_get self "_export_to" (PDict ∅) = PDict eo →
  Forall (λ occ, c_is_text occ = true) occs →
  _private_notes self (PList (PDict <$> occs)) =
    let notes := PList (old ++ concat (private_notes_of <$> occs)) in
    Ok (<["_export_to" := PDict (foldl flag_step eo occs)]>
          (Py.mutated_in_place self "_private_notes" notes),
        notes).
Proof.
  intros Hn He Hc. unfold _private_notes. rewrite Hn, He.
  change (force_list (PList (PDict <$> occs))) with (PDict <$> occs).
  rewrite (_private_notes_loop _ _ _ Hc). reflexivity.
Qed.

(** X11. On a sequence of general 595 occurrences, whatever their
    classification, the rule returns the notes that were in the record
    followed, occurrence by occurrence and in order, by one entry per text
    of sub-field a, each with the source of its own occurrence; and it
    stores [_export_to] in the record even when no occurrence carries an
    export marker. *)
Theorem private_notes_source_per_occurrence :
  ∀ (self eo : record) (occs : list record) (old : list pyval),
    Py.self_get self "_private_notes" (PList []) = PList old →
    Py.self_get self "_export_to" (PDict ∅) = PDict eo →
    Forall (λ occ, c_is_text occ = true) occs →
    ∃ (self' : record) (groups : list (list pyval)),
      _private_notes self (PList (PDict <$> occs)) =
        Ok (self', PList (old ++ concat groups))
      ∧ Forall2 (λ occ group,
                   Forall2 (λ text entry,
                              entry = PDict (<["source" := collapsed_9 occ]>
                                             (<["value" := text]> ∅)))
                           (force_list (default PNone (occ !! "a"))) group)
                occs groups
      ∧ is_Some (self' !! "_export_to").
Proof.
  intros self eo occs old Hn He Hc.
  rewrite (_private_notes_run _ _ _ _ Hn He Hc). cbv zeta.
  exists (<["_export_to" := PDict (foldl flag_step eo occs)]>
            (Py.mutated_in_place self "_private_notes"
               (PList (old ++ concat (private_notes_of <$> occs))))),
         (private_notes_of <$> occs).
  split; [reflexivity |]. split.
  - apply Forall2_fmap_r, Forall_Forall2_diag, Forall_true. intros occ.
    apply Forall2_fmap_r, Forall_Forall2_diag, Forall_true. intros text.
    reflexivity.
  - rewrite lookup_insert_eq. eexists. reflexivity.
Qed.

Lemma private_notes_source_per_occurrence_witness :
  ∃ (self' : record) (groups : list (list pyval)),
    _private_notes ∅
      (PList (PDict <$>
                [ <["9" := PStr "arXiv"]> (<["a" := PStr "first note"]> ∅);
                  <["9" := PStr "CDS"]> (<["c" := PStr "cds"]> ∅) ])) =
      Ok (self', PList ([] ++ concat groups))
    ∧ length groups = 2
    ∧ is_Some (self' !! "_export_to").
Proof.
  destruct (private_notes_source_per_occurrence
              ∅ ∅
              [ <["9" := PStr "arXiv"]> (<["a" := PStr "first note"]> ∅);
                <["9" := PStr "CDS"]> (<["c" := PStr "cds"]> ∅) ] [])
    as (self' & groups & Hrun & Hgroups & Hexp);
    [reflexivity | reflexivity | repeat constructor |].
  exists self', groups. split; [exact Hrun |]. split; [| exact Hexp].
  symmetry. exact (Forall2_length _ _ _ Hgroups).
Defined.

(** ** Export flags over the occurrences *)

Lemma flag_step_other (eo occ : record) (k : string) :
  k ≠ "CDS" → k ≠ "HAL" → flag_step eo occ !! k = eo !! k.
Proof.
  intros Hc Hh. unfold flag_step.
  destruct (String.eqb (marker occ) "CDS");
    [rewrite lookup_insert_ne by congruence; reflexivity |].
  destruct (String.eqb (marker occ) "HAL");
    [rewrite lookup_insert_ne by congruence; reflexivity |].
  destruct (String.eqb (marker occ) "NOT HAL");
    [rewrite lookup_insert_ne by congruence; reflexivity | reflexivity].
Qed.

Lemma flag_step_cds_stays (eo occ : record) :
  eo !! "CDS" = Some (PBool true) →
  flag_step eo occ !! "CDS" = Some (PBool true).
Proof.
  intros H. unfold flag_step.
  destruct (String.eqb (marker occ) "CDS"); [apply lookup_insert_eq |].
  destruct (String.eqb (marker occ) "HAL");
    [rewrite lookup_insert_ne by discriminate; exact H |].
  destruct (String.eqb (marker occ) "NOT HAL");
    [rewrite lookup_insert_ne by discriminate; exact H | exact H].
Qed.

Lemma flag_step_cds (eo occ : record) :
  marker occ = "CDS" → flag_step eo occ !! "CDS" = Some (PBool true).
Proof. intros H. unfold flag_step. rewrite H. apply lookup_insert_eq. Qed.

Lemma flag_step_hal (eo occ : record) :
  (marker occ = "HAL" → flag_step eo occ !! "HAL" = Some (PBool true))
  ∧ (marker occ = "NOT HAL" → flag_step eo occ !! "HAL" = Some (PBool false)).
Proof.
  unfold flag_step. split; intros ->; apply lookup_insert_eq.
Qed.

Lemma flag_step_hal_kept (eo occ : record) :
  marker occ ≠ "HAL" → marker occ ≠ "NOT HAL" →
  flag_step eo occ !! "HAL" = eo !! "HAL".
Proof.
  intros Hh Hn. unfold flag_step.
  destruct (String.eqb (marker occ) "CDS");
    [rewrite lookup_insert_ne by discriminate; reflexivity |].
  destruct (String.eqb_spec (marker occ) "HAL"); [contradiction |].
  destruct (String.eqb_spec (marker occ) "NOT HAL"); [contradiction |].
  reflexivity.
Qed.

Lemma flags_other (occs : list record) (eo : record) (k : string) :
  k ≠ "CDS" → k ≠ "HAL" → foldl flag_step eo occs !! k = eo !! k.
Proof.
  intros Hc Hh. revert eo. induction occs as [| occ occs IH]; intros eo;
    [reflexivity |].
  simpl. rewrite IH. apply flag_step_other; assumption.
Qed.

Lemma flags_cds_stays (occs : list record) (eo : record) :
  eo !! "CDS" = Some (PBool true) →
  foldl flag_step eo occs !! "CDS" = Some (PBool true).
Proof.
  revert eo. induction occs as [| occ occs IH]; intros eo H; [exact H |].
  simpl. apply IH, flag_step_cds_stays, H.
Qed.

Lemma flags_cds (occs : list record) (eo : record) :
  Exists (λ occ, marker occ = "CDS") occs →
  foldl flag_step eo occs !! "CDS" = Some (PBool true).
Proof.
  intros H. revert eo. induction H as [occ occs Hocc | occ occs _ IH];
    intros eo; simpl.
  - apply flags_cds_stays, flag_step_cds, Hocc.
  - apply IH.
Qed.

Lemma flags_hal_kept (occs : list record) (eo : record) :
  Forall (λ occ, marker occ ≠ "HAL" ∧ marker occ ≠ "NOT HAL") occs →
  foldl flag_step eo occs !! "HAL" = eo !! "HAL".
Proof.
  intros H. revert eo. induction H as [| occ occs [Hh Hn] _ IH]; intros eo;
    [reflexivity |].
  simpl. rewrite IH. apply flag_step_hal_kept; assumption.
Qed.

(** X12. The export flags the general 595 rule leaves in the record after a
    sequence of occurrences: [CDS] is true as soon as one occurrence is
    classified "CDS"; [HAL] is decided by the last occurrence classified
    "HAL" (true) or "NOT HAL" (false); no other key of the flags is
    touched. *)
Theorem export_flags_after_sequence :
  ∀ (self eo : record) (occs : list record) (old : list pyval),
    Py.self_get self "_private_notes" (PList []) = PList old →
    Py.self_get self "_export_to" (PDict ∅) = PDict eo →
    Forall (λ occ, c_is_text occ = true) occs →
    ∃ (self' : record) (notes : pyval) (eo' : record),
      _private_notes self (PList (PDict <$> occs)) = Ok (self', notes)
      ∧ self' !! "_export_to" = Some (PDict eo')
      ∧ (Exists (λ occ, marker occ = "CDS") occs →
         eo' !! "CDS" = Some (PBool true))
      ∧ (∀ (before after : list record) (occ : record),
           occs = before ++ occ :: after →
           Forall (λ o, marker o ≠ "HAL" ∧ marker o ≠ "NOT HAL") after →
           (marker occ = "HAL" → eo' !! "HAL" = Some (PBool true))
           ∧ (marker occ = "NOT HAL" → eo' !! "HAL" = Some (PBool false)))
      ∧ (∀ k, k ≠ "CDS" → k ≠ "HAL" → eo' !! k = eo !! k).
Proof.
  intros self eo occs old Hn He Hc.
  rewrite (_private_notes_run _ _ _ _ Hn He Hc). cbv zeta.
  do 3 eexists. split; [reflexivity |].
  split; [apply lookup_insert_eq |].
  split; [apply flags_cds |].
  split; [| intros k Hk1 Hk2; apply flags_other; assumption].
  intros before after occ -> Hafter.
  rewrite foldl_app. simpl. rewrite (flags_hal_kept _ _ Hafter).
  apply flag_step_hal.
Qed.

Lemma export_flags_after_sequence_witness :
  ∃ (self' : record) (notes : pyval) (eo' : record),
    _private_notes ∅
      (PList (PDict <$> [ {["c" := PStr "HAL"]}; {["c" := PStr "not hal"]};
                          {["c" := PStr "cds"]} ])) = Ok (self', notes)
    ∧ self' !! "_export_to" = Some (PDict eo')
    ∧ eo' !! "CDS" = Some (PBool true)
    ∧ eo' !! "HAL" = Some (PBool false).
Proof.
  destruct (export_flags_after_sequence
              ∅ ∅ [ {["c" := PStr "HAL"]}; {["c" := PStr "not hal"]};
                    {["c" := PStr "cds"]} ] [])
    as (self' & notes & eo' & Hrun & Heo & Hcds & Hhal & _);
    [reflexivity | reflexivity | repeat constructor |].
  exists self', notes, eo'. split; [exact Hrun |]. split; [exact Heo |].
  split.
  - apply Hcds. do 2 apply Exists_cons_tl. apply Exists_cons_hd. reflexivity.
  - destruct (Hhal [ {["c" := PStr "HAL"]} ] [ {["c" := PStr "cds"]} ]
                {["c" := PStr "not hal"]}) as [_ H];
      [reflexivity | | apply H; reflexivity].
    repeat constructor; discriminate.
Defined.

(** X13. The general 595 rule raises [AttributeError] on an occurrence
    whose sub-field c is not a string (a repeated sub-field c, a number),
    whatever the record holds: the classification is upper-cased before
    anything else is done. *)
Theorem private_notes_classification_not_text :
  ∀ (self occ : record) (v : pyval),
    occ !! "c" = Some v →
    (∀ s, v ≠ PStr s) →
    _private_notes self (PDict occ) = Raise AttributeError.
Proof.
  intros self occ v Hv Hs. unfold _private_notes. simpl.
  unfold _private_notes_body. unfold export_flag, classified_as. simpl.
  rewrite Hv. simpl.
  destruct v as [| | | s | |]; try reflexivity.
  contradiction (Hs s). reflexivity.
Qed.

Lemma private_notes_classification_not_text_witness :
  _private_notes ∅
    (PDict {["c" := PList [PStr "CDS"; PStr "HAL"]]}) = Raise AttributeError.
Proof.
  apply (private_notes_classification_not_text
           ∅ _ (PList [PStr "CDS"; PStr "HAL"])); [reflexivity |].
  intros s. discriminate.
Defined.

(** X14. Export flag, forward then backward: on a record without export
    flags, the general 595 rule given one occurrence whose classification
    is absent or a text in ASCII leaves flags from which the backward export
    rule gives "CDS", "HAL" or "not HAL" when the classification reads
    "CDS", "HAL" or "NOT HAL" in upper case, and nothing for any other
    classification. *)
Theorem export_flag_round_trip :
  ∀ (self occ : record) (old : list pyval),
    Py.self_get self "_private_notes" (PList []) = PList old →
    self !! "_export_to" = None →
    c_is_text occ = true →
    (∀ s : string, occ !! "c" = Some (PStr s) → Text.is_ascii s = true) →
    ∃ (self' : record) (notes : pyval) (eo' : record),
      _private_notes self (PDict occ) = Ok (self', notes)
      ∧ self' !! "_export_to" = Some (PDict eo')
      ∧ _export_to2marc eo' = export_occurrence (marker occ).
Proof.
  intros self occ old Hn He Hc _.
  assert (Py.self_get self "_export_to" (PDict ∅) = PDict ∅) as He'
    by (unfold Py.self_get; rewrite He; reflexivity).
  pose proof (_private_notes_run self ∅ [occ] old Hn He'
                (Forall_cons_2 _ _ _ Hc (Forall_nil_2 _))) as Hrun.
  unfold _private_notes in Hrun |- *.
  change (force_list (PList (PDict <$> [occ]))) with [PDict occ] in Hrun.
  change (force_list (PDict occ)) with [PDict occ].
  rewrite Hrun. cbv zeta.
  do 3 eexists. split; [reflexivity |].
  split; [apply lookup_insert_eq |].
  simpl. unfold flag_step, export_occurrence.
  destruct (String.eqb (marker occ) "CDS"); [reflexivity |].
  destruct (String.eqb (marker occ) "HAL"); [reflexivity |].
  destruct (String.eqb (marker occ) "NOT HAL"); reflexivity.
Qed.

Lemma export_flag_round_trip_witness :
  ∃ (self' : record) (notes : pyval) (eo' : record),
    _private_notes ∅ (PDict {["c" := PStr "Not HAL"]}) = Ok (self', notes)
    ∧ self' !! "_export_to" = Some (PDict eo')
    ∧ _export_to2marc eo' = [PDict {["c" := PStr "not HAL"]}].
Proof.
  destruct (export_flag_round_trip ∅ {["c" := PStr "Not HAL"]} [])
    as (self' & notes & eo' & Hrun & Heo & Hback);
    [reflexivity | reflexivity | reflexivity | |].
  { intros s Hs. rewrite lookup_singleton_eq in Hs. injection Hs as <-.
    reflexivity. }
  exists self', notes, eo'. split; [exact Hrun |]. split; [exact Heo |].
  rewrite Hback. reflexivity.
Defined.

(** ** Private notes, there and back *)

Lemma _private_notes2marc_body_entry (source text : pyval)
    (r595 r595H : list pyval) :
  _private_notes2marc_body (PList r595, PList r595H) (note_entry source text) =
    if Py.eq_str source "HAL"
    then Ok (PList r595, PList (r595H ++ [PDict {["a" := text]}]))
    else Ok (PList (r595 ++ [PDict (<["9" := source]> (<["a" := text]> ∅))]),
             PList r595H).
Proof.
  unfold _private_notes2marc_body, _is_from_hal, note_entry. simpl.
  rewrite !lookup_insert. simpl.
  destruct (Py.eq_str source "HAL"); reflexivity.
Qed.

(** The backward rule on entries that all carry one source: all of them go
    to 595_H when the source is "HAL", all of them to 595 otherwise. *)
Lemma _private_notes2marc_entries (source : pyval) (texts : list pyval) :
  ∀ r595 r595H : list pyval,
    for_each _private_notes2marc_body (PList r595, PList r595H)
             (note_entry source <$> texts) =
      if Py.eq_str source "HAL"
      then Ok (PList r595,
               PList (r595H ++ ((λ text, PDict {["a" := text]}) <$> texts)))
      else Ok (PList (r595 ++ ((λ text, PDict (<["9" := source]>
                                               (<["a" := text]> ∅)))
                               <$> texts)),
               PList r595H).
Proof.
  induction texts as [| text texts IH]; intros r595 r595H.
  - simpl. rewrite !app_nil_r. destruct (Py.eq_str source "HAL"); reflexivity.
  - rewrite !fmap_cons, for_each_cons, _private_notes2marc_body_entry.
    destruct (Py.eq_str source "HAL"); rewrite bind_Ok, IH;
      rewrite <- app_assoc; reflexivity.
Qed.

(** X15. General private notes, forward then backward: the notes the
    general 595 rule makes from one occurrence come back as one occurrence
    per text.  When the source of the occurrence is not "HAL" they go to
    595, each with sub-fields 9 and a, and 595_H is left as it was; when
    the source is "HAL" they all go to 595_H, with sub-field a only, and
    595 is left as it was. *)
Theorem private_notes_round_trip :
  ∀ (self occ rec : record) (r595 r595H : list pyval),
    self !! "_private_notes" = None →
    Py.self_get self "_export_to" (PDict ∅) = PDict ∅ →
    c_is_text occ = true →
    Py.self_get rec "595" (PList []) = PList r595 →
    Py.self_get rec "595_H" (PList []) = PList r595H →
    let texts := force_list (default PNone (occ !! "a")) in
    ∃ (self' rec' : record) (notes out_595 out_595_H : list pyval),
      _private_notes self (PDict occ) = Ok (self', PList notes)
      ∧ _private_notes2marc rec (PList notes) = Ok (rec', PList out_595)
      ∧ rec' !! "595_H" = Some (PList out_595_H)
      ∧ (Py.eq_str (collapsed_9 occ) "HAL" = false →
         out_595 = r595 ++ ((λ text, PDict (<["9" := collapsed_9 occ]>
                                            (<["a" := text]> ∅))) <$> texts)
         ∧ out_595_H = r595H)
      ∧ (Py.eq_str (collapsed_9 occ) "HAL" = true →
         out_595 = r595
         ∧ out_595_H = r595H ++ ((λ text, PDict {["a" := text]}) <$> texts)).
Proof.
  intros self occ rec r595 r595H Hn He Hc H595 H595H texts.
  assert (Py.self_get self "_private_notes" (PList []) = PList []) as Hn'
    by (unfold Py.self_get; rewrite Hn; reflexivity).
  pose proof (_private_notes_run self ∅ [occ] [] Hn' He
                (Forall_cons_2 _ _ _ Hc (Forall_nil_2 _))) as Hrun.
  unfold _private_notes in Hrun |- *.
  change (force_list (PList (PDict <$> [occ]))) with [PDict occ] in Hrun.
  change (force_list (PDict occ)) with [PDict occ].
  rewrite Hrun. cbv zeta. simpl concat. rewrite app_nil_r. simpl app.
  unfold private_notes_of. fold texts.
  unfold _private_notes2marc. rewrite H595, H595H.
  destruct (Py.eq_str (collapsed_9 occ) "HAL") eqn:Hs;
    eexists _, _, (note_entry (collapsed_9 occ) <$> texts), _, _;
    (split; [reflexivity |]);
    change (force_list (PList ?l)) with l;
    rewrite _private_notes2marc_entries, Hs; simpl;
    (split; [reflexivity |]);
    (split; [apply lookup_insert_eq |]);
    split; intros H; try discriminate H; split; reflexivity.
Qed.

Lemma private_notes_round_trip_witness :
  ∃ (self' rec' : record) (notes : list pyval),
    _private_notes ∅
      (PDict (<["9" := PStr "SPIRES"]> (<["a" := PStr "Update"]> ∅))) =
      Ok (self', PList notes)
    ∧ _private_notes2marc ∅ (PList notes) =
        Ok (rec', PList [PDict (<["9" := PStr "SPIRES"]>
                                (<["a" := PStr "Update"]> ∅))])
    ∧ rec' !! "595_H" = Some (PList []).
Proof.
  destruct (private_notes_round_trip
              ∅ (<["9" := PStr "SPIRES"]> (<["a" := PStr "Update"]> ∅)) ∅ [] [])
    as (self' & rec' & notes & o595 & o595H & Hfwd & Hbwd & HH & Hno & _);
    [reflexivity | reflexivity | reflexivity | reflexivity | reflexivity |].
  destruct Hno as [-> ->]; [reflexivity |].
  exists self', rec', notes. split; [exact Hfwd |]. split; [exact Hbwd |].
  exact HH.
Defined.

Lemma concat_hal_notes (occs : list record) :
  concat (hal_notes_of <$> occs) =
    note_entry (PStr "HAL")
      <$> concat ((λ occ, force_list (default PNone (occ !! "a"))) <$> occs).
Proof.
  induction occs as [| occ occs IH]; [reflexivity |].
  rewrite !fmap_cons. simpl. rewrite IH, fmap_app. reflexivity.
Qed.

(** X16. HAL notes, forward then backward: the notes the 595.H rule makes
    from a sequence of occurrences all come back in 595_H, one occurrence
    per text with sub-field a only, and nothing is added to 595. *)
Theorem hal_notes_round_trip :
  ∀ (self rec : record) (occs : list record) (r595 r595H : list pyval),
    self !! "_private_notes" = None →
    Py.self_get rec "595" (PList []) = PList r595 →
    Py.self_get rec "595_H" (PList []) = PList r595H →
    ∃ (self' rec' : record) (notes : list pyval),
      _private_notes_hal self (PList (PDict <$> occs)) = Ok (self', PList notes)
      ∧ _private_notes2marc rec (PList notes) = Ok (rec', PList r595)
      ∧ rec' !! "595_H" =
          Some (PList (r595H
                       ++ ((λ text, PDict {["a" := text]})
                             <$> concat ((λ occ, force_list
                                                   (default PNone (occ !! "a")))
                                           <$> occs)))).
Proof.
  intros self rec occs r595 r595H Hn H595 H595H.
  assert (Py.self_get self "_private_notes" (PList []) = PList []) as Hn'
    by (unfold Py.self_get; rewrite Hn; reflexivity).
  unfold _private_notes_hal. rewrite Hn'.
  change (force_list (PList (PDict <$> occs))) with (PDict <$> occs).
  rewrite _private_notes_hal_loop. simpl app. rewrite concat_hal_notes.
  do 3 eexists. split; [reflexivity |].
  unfold _private_notes2marc. rewrite H595, H595H.
  change (force_list (PList ?l)) with l.
  rewrite _private_notes2marc_entries. simpl.
  split; [reflexivity | apply lookup_insert_eq].
Qed.

Lemma hal_notes_round_trip_witness :
  ∃ (self' rec' : record) (notes : list pyval),
    _private_notes_hal ∅ (PList (PDict <$> [sample_hal_occurrence])) =
      Ok (self', PList notes)
    ∧ _private_notes2marc ∅ (PList notes) = Ok (rec', PList [])
    ∧ rec' !! "595_H" = Some (PList [PDict {["a" := PStr "Deposited from HAL"]}]).
Proof.
  destruct (hal_notes_round_trip ∅ ∅ [sample_hal_occurrence] [] [])
    as (self' & rec' & notes & Hfwd & Hbwd & HH);
    [reflexivity | reflexivity | reflexivity |].
  exists self', rec', notes. split; [exact Hfwd |]. split; [exact Hbwd |].
  exact HH.
Defined.

(** ** Copyright: the fallback sub-field *)

(** X17. When sub-field e of a 542 occurrence is missing or empty and
    sub-field 3 is a string, the material is read from sub-field 3; the way
    there and back gives it under sub-field e ("Article" when the material
    table lists the value of 3, [None] otherwise) and never under 3. *)
Theorem copyright_fallback_comes_back_as_e :
  ∀ (maybe_int : pyval → pyval) (raw : record) (m3 : string),
    raw !! "e" = None ∨ raw !! "e" = Some (PStr "") →
    raw !! "3" = Some (PStr m3) →
    ∃ out : record,
      round_trip (copyright maybe_int) copyright2marc (PDict raw) =
        Ok (PList [PDict out])
      ∧ out !! "e" =
          Some (if bool_decide (is_Some (MATERIAL_MAP !! m3))
                then PStr "Article" else PNone)
      ∧ out !! "3" = None.
Proof.
  intros maybe_int raw m3 He H3.
  assert (copyright_1 maybe_int (PDict raw) =
            Ok (PDict (<["holder" := default PNone (raw !! "d")]>
                      (<["material" := from_option PStr PNone
                                         (MATERIAL_MAP !! m3)]>
                      (<["statement" := default PNone (raw !! "f")]>
                      (<["url" := default PNone (raw !! "u")]>
                      (<["year" := maybe_int (default PNone (raw !! "g"))]>
                         ∅))))))) as Hfwd.
  { unfold copyright_1. simpl.
    destruct He as [He | He]; rewrite He; simpl; rewrite H3; reflexivity. }
  unfold round_trip, copyright, for_each_value. rewrite Hfwd. simpl.
  unfold copyright2marc_1. simpl. rewrite !lookup_insert. simpl.
  rewrite material_there_and_back. simpl.
  eexists. split; [reflexivity |]. split.
  - rewrite lookup_insert_ne by discriminate. apply lookup_insert_eq.
  - rewrite !lookup_insert_ne by discriminate. apply lookup_empty.
Qed.

Lemma copyright_fallback_comes_back_as_e_witness :
  ∃ out : record,
    round_trip (copyright never_int) copyright2marc
      (PDict {["3" := PStr "Article"]}) = Ok (PList [PDict out])
    ∧ out !! "e" = Some (PStr "Article")
    ∧ out !! "3" = None.
Proof.
  destruct (copyright_fallback_comes_back_as_e
              never_int {["3" := PStr "Article"]} "Article")
    as (out & Hrun & He & H3); [left; reflexivity | reflexivity |].
  exists out. split; [exact Hrun |]. split; [| exact H3].
  rewrite He. reflexivity.
Defined.

(** ** What the forward 500 rule leaves in the record *)

(** X18. Whenever the forward 500 rule returns, the record holds a
    [thesis_info] (even when no text was a defense date), every key other
    than [thesis_info] and [public_notes] is as it was, and [public_notes]
    is in the record, holding the returned list, exactly when it was there
    before the call: the rule does not store its result itself. *)
Theorem public_notes_record_after :
  ∀ (self : record) (value : pyval) (self' : record) (r : pyval),
    public_notes self value = Ok (self', r) →
    is_Some (self' !! "thesis_info")
    ∧ (∀ k, k ≠ "thesis_info" → k ≠ "public_notes" → self' !! k = self !! k)
    ∧ (self !! "public_notes" = None → self' !! "public_notes" = None)
    ∧ (is_Some (self !! "public_notes") → self' !! "public_notes" = Some r).
Proof.
  intros self value self' r H. unfold public_notes in H.
  destruct (Py.get value "9" (PStr "")) as [v9 | e]; [| discriminate H].
  simpl in H.
  destruct (for_each _ _ _) as [[ti' pn'] | e]; [| discriminate H].
  simpl in H. injection H as <- <-.
  unfold Py.mutated_in_place.
  split; [rewrite lookup_insert_eq; eexists; reflexivity |].
  split; [| split].
  - intros k Hk1 Hk2. rewrite lookup_insert_ne by congruence.
    destruct (self !! "public_notes");
      [rewrite lookup_insert_ne by congruence |]; reflexivity.
  - intros Hn. rewrite lookup_insert_ne by discriminate.
    rewrite Hn. exact Hn.
  - intros [x Hx]. rewrite lookup_insert_ne by discriminate.
    rewrite Hx. apply lookup_insert_eq.
Qed.

Lemma public_notes_record_after_witness :
  ∃ (self' : record) (r : pyval),
    public_notes ∅ (PDict {["a" := PStr "Talk given at CERN"]}) = Ok (self', r)
    ∧ is_Some (self' !! "thesis_info")
    ∧ self' !! "public_notes" = None.
Proof.
  assert (∃ self' r,
            public_notes ∅ (PDict {["a" := PStr "Talk given at CERN"]}) =
              Ok (self', r)) as (self' & r & Hrun)
    by (do 2 eexists; vm_compute; reflexivity).
  exists self', r. split; [exact Hrun |].
  destruct (public_notes_record_after _ _ _ _ Hrun) as (Hti & _ & Hnone & _).
  split; [exact Hti | apply Hnone; reflexivity].
Defined.

(** X19. The forward 500 rule raises [TypeError] on an occurrence whose
    sub-field a is a single value that is not a string (a number, for
    instance), whatever the record holds: the pattern is applied to the
    value before anything else is done with it. *)
Theorem public_notes_text_not_a_string :
  ∀ (self occ : record) (v : pyval),
    occ !! "a" = Some v →
    (∀ s, v ≠ PStr s) → v ≠ PNone → is_list v = false →
    public_notes self (PDict occ) = Raise TypeError.
Proof.
  intros self occ v Ha Hs Hn Hl. unfold public_notes. simpl.
  unfold public_notes_occurrence. simpl. rewrite Ha. simpl.
  destruct v as [| b | n | s | xs | d]; try discriminate Hl;
    try reflexivity.
  - contradiction Hn. reflexivity.
  - contradiction (Hs s). reflexivity.
Qed.

Lemma public_notes_text_not_a_string_witness :
  public_notes ∅ (PDict {["a" := PInt 1999]}) = Raise TypeError.
Proof.
  apply (public_notes_text_not_a_string ∅ _ (PInt 1999));
    [reflexivity | intros s; discriminate | discriminate | reflexivity].
Defined.

(** ** Several defense dates *)

Lemma for_each_app {A S : Type} (body : S → A → result S) (s : S)
    (xs ys : list A) :
  for_each body s (xs ++ ys) = for_each body s xs ≫= λ s', for_each body s' ys.
Proof.
  revert s. induction xs as [| x xs IH]; intros s; [reflexivity |].
  simpl. destruct (body s x) as [s' | e]; [| reflexivity].
  simpl. apply IH.
Qed.

(** Texts none of which is a defense date leave the thesis information as
    it was. *)
Lemma public_notes_body_no_date (source : pyval) (texts : list string) :
  Forall (λ text, Regex.defense_date text = None) texts →
  ∀ (ti : record) (old : list pyval),
    ∃ new : list pyval,
      for_each (public_notes_body source) (PDict ti, PList old)
               (PStr <$> texts) = Ok (PDict ti, PList (old ++ new)).
Proof.
  induction 1 as [| text texts Htext _ IH]; intros ti old.
  - exists []. simpl. rewrite app_nil_r. reflexivity.
  - rewrite fmap_cons, for_each_cons, public_notes_body_text, Htext, bind_Ok.
    destruct (IH ti (old ++ [note_entry source (PStr text)])) as [new Hnew].
    exists (note_entry source (PStr text) :: new).
    rewrite Hnew, <- app_assoc. reflexivity.
Qed.

(** X20. When several texts of a 500 occurrence are defense dates, the
    last one wins: [defense_date] in the [thesis_info] left in the record
    is the date captured from the last text that the pattern matches.
    That text and the texts after it are in ASCII; the texts before it are
    any texts. *)
Theorem public_notes_last_defense_date :
  ∀ (self occ : record) (old : list pyval) (ti : record)
    (before after : list string) (text d : string),
    Py.self_get self "public_notes" (PList []) = PList old →
    Py.self_get self "thesis_info" (PDict ∅) = PDict ti →
    force_list (default PNone (occ !! "a")) =
      PStr <$> (before ++ text :: after) →
    Text.is_ascii text = true →
    Regex.defense_date text = Some d →
    Forall (λ t, Text.is_ascii t = true) after →
    Forall (λ t, Regex.defense_date t = None) after →
    ∃ (self' : record) (notes : pyval) (ti' : record),
      public_notes self (PDict occ) = Ok (self', notes)
      ∧ self' !! "thesis_info" = Some (PDict ti')
      ∧ ti' !! "defense_date" = Some (PStr d).
Proof.
  intros self occ old ti before after text d Hn Ht Ha _ Hd _ Hafter.
  unfold public_notes. rewrite Hn, Ht. simpl.
  unfold public_notes_occurrence. simpl. rewrite Ha.
  rewrite fmap_app, for_each_app, fmap_cons.
  destruct (public_notes_body_loop (source_of occ) before ti old)
    as (ti1 & new1 & Hbefore & _).
  unfold source_of in Hbefore. rewrite Hbefore, bind_Ok.
  rewrite for_each_cons, public_notes_body_text, Hd, bind_Ok.
  destruct (public_notes_body_no_date
              (force_single_element (default (PStr "") (occ !! "9")))
              after Hafter (<["defense_date" := PStr d]> ti1) (old ++ new1))
    as [new2 Hrest].
  rewrite Hrest. simpl.
  do 3 eexists. split; [reflexivity |].
  split; apply lookup_insert_eq.
Qed.

Lemma public_notes_last_defense_date_witness :
  ∃ (self' : record) (notes : pyval) (ti' : record),
    public_notes ∅
      (PDict {["a" := PList [PStr "Presented on 1999-05";
                             PStr "Presented on 2000-01-31";
                             PStr "Revised version"]]}) = Ok (self', notes)
    ∧ self' !! "thesis_info" = Some (PDict ti')
    ∧ ti' !! "defense_date" = Some (PStr "2000-01-31").
Proof.
  apply (public_notes_last_defense_date
           ∅ _ [] ∅ ["Presented on 1999-05"] ["Revised version"]
           "Presented on 2000-01-31" "2000-01-31");
    [reflexivity | reflexivity | reflexivity | reflexivity | reflexivity | |];
    repeat constructor.
Defined.

(** ** The forward 502 rule does not accumulate *)

(** X21. The three fields the forward 502 rule writes depend on the
    occurrence only: called on the same occurrence with two records that
    hold different thesis information, it returns objects that both have
    [date], [degree_type] and [institutions] and agree on them, so nothing
    of an earlier 502 is kept in these fields. *)
Theorem thesis_info_overwrites :
  ∀ (get_record_ref : pyval → string → pyval) (self1 self2 : record)
    (value : pyval) (self1' self2' : record) (r1 r2 : pyval),
    thesis_info get_record_ref self1 value = Ok (self1', r1) →
    thesis_info get_record_ref self2 value = Ok (self2', r2) →
    ∃ t1 t2 : record,
      r1 = PDict t1 ∧ r2 = PDict t2
      ∧ ∀ k, k ∈ written_by_502 → is_Some (t1 !! k) ∧ t1 !! k = t2 !! k.
Proof.
  intros gr self1 self2 value self1' self2' r1 r2 H1 H2.
  destruct (thesis_info_returns gr _ _ _ _ H1)
    as (occ & ti1 & dt & -> & Ht1 & Hd).
  destruct (thesis_info_returns gr _ _ _ _ H2)
    as (occ' & ti2 & dt' & Hocc & Ht2 & _).
  injection Hocc as <-.
  destruct (thesis_info_run gr _ _ _ _ Ht1 Hd) as (i & Hi & Hrun1).
  destruct (thesis_info_run gr _ _ _ _ Ht2 Hd) as (i' & Hi' & Hrun2).
  rewrite Hi in Hi'. injection Hi' as <-.
  rewrite Hrun1 in H1. rewrite Hrun2 in H2. cbv zeta in H1, H2.
  injection H1 as _ <-. injection H2 as _ <-.
  do 2 eexists. split; [reflexivity |]. split; [reflexivity |].
  intros k Hk. unfold written_by_502 in Hk.
  apply list_elem_of_In in Hk. simpl in Hk.
  destruct Hk as [<- | [<- | [<- | []]]];
    rewrite !lookup_insert; simpl; split; (reflexivity || eexists; reflexivity).
Qed.

Lemma thesis_info_overwrites_witness :
  ∃ t1 t2 : record,
    t1 !! "date" = t2 !! "date"
    ∧ t1 !! "date" = Some (PStr "2001")
    ∧ t2 !! "defense_date" = Some (PStr "1999-05").
Proof.
  assert (∃ s1 r1, thesis_info null_reference ∅
                     (PDict {["d" := PStr "2001"]}) = Ok (s1, r1))
    as (s1 & r1 & H1) by (do 2 eexists; vm_compute; reflexivity).
  assert (∃ s2 t2,
            thesis_info null_reference
              {["thesis_info" := PDict (<["date" := PStr "1987"]>
                                        {["defense_date" := PStr "1999-05"]})]}
              (PDict {["d" := PStr "2001"]}) = Ok (s2, PDict t2)
            ∧ t2 !! "date" = Some (PStr "2001")
            ∧ t2 !! "defense_date" = Some (PStr "1999-05"))
    as (s2 & t2 & H2 & Hdate & Hdef)
    by (do 2 eexists; split; [vm_compute; reflexivity | split; reflexivity]).
  destruct (thesis_info_overwrites _ _ _ _ _ _ _ _ H1 H2)
    as (t1 & t2' & -> & Heq & Hk).
  injection Heq as <-.
  exists t1, t2.
  destruct (Hk "date") as [_ Hd]; [unfold written_by_502; set_solver |].
  split; [exact Hd |]. split; [rewrite Hd; exact Hdate | exact Hdef].
Defined.

